(** * The dashboard client of lean-cli: [api/client.go]

    A shallow embedding of the authenticated HTTP client (base URL
    resolution, default request options, the request pipeline and the
    two-factor-authentication challenge handler), and the theorems that
    relate it to its specification.

    Go values are modelled as follows.
    - [int] is [Z]; [string] is a byte string ([String.string]).
    - Go maps ([map[string]string], [map[string]interface{}], the region
      table) are [gmap]s; a nil map or nil pointer is [None].
    - A function returning [(x, err)] returns [A + error]: [inl x] when
      [err == nil], [inr err] otherwise.
    - [panic] is a separate outcome, [Panic], that aborts the call.
    - [*cookiejar.Jar] is a reference into a heap of jars kept in the
      machine state; the cookies themselves, the files and the server live
      in an abstract world [W] that only the library calls can touch.
    - Every library call that can change the world appends an [Event] to a
      trace, so that what a call did, and in which order, can be stated. *)

From Stdlib Require Import ZArith String Ascii List Lia Bool.
From stdpp Require Import base option list gmap strings pretty.

Open Scope string_scope.

(** ** Functions of the Go standard library used by the client *)

Module GoStrings.

(** [strings.HasPrefix(s, prefix)] *)
Definition HasPrefix (s prefix : string) : bool := String.prefix prefix s.

Definition byte (c : ascii) : nat := nat_of_ascii c.

(** The ASCII members of [unicode.IsSpace]: tab, LF, VT, FF, CR, space. *)
Definition asciiSpace (c : ascii) : bool :=
  ((9 <=? byte c) && (byte c <=? 13))%nat || (byte c =? 32)%nat.

(** The remaining white space of [unicode.IsSpace], as UTF-8:
    U+0085 and U+00A0 take two bytes (first byte C2), *)
Definition space2 (b1 b2 : ascii) : bool :=
  (byte b1 =? 194)%nat && ((byte b2 =? 133)%nat || (byte b2 =? 160)%nat).

(** and U+1680, U+2000..U+200A, U+2028, U+2029, U+202F, U+205F, U+3000
    take three. *)
Definition space3 (b1 b2 b3 : ascii) : bool :=
  ((byte b1 =? 225) && (byte b2 =? 154) && (byte b3 =? 128))%nat
  || ((byte b1 =? 226) && (byte b2 =? 128)
      && (((128 <=? byte b3) && (byte b3 <=? 138))
          || (byte b3 =? 168) || (byte b3 =? 169) || (byte b3 =? 175)))%nat
  || ((byte b1 =? 226) && (byte b2 =? 129) && (byte b3 =? 159))%nat
  || ((byte b1 =? 227) && (byte b2 =? 128) && (byte b3 =? 128))%nat.

(** [strings.TrimLeftFunc(s, unicode.IsSpace)] on the bytes of [s]. *)
Fixpoint trimLeft (s : string) : string :=
  match s with
  | EmptyString => EmptyString
  | String a s1 =>
      if asciiSpace a then trimLeft s1 else
      match s1 with
      | EmptyString => s
      | String b s2 =>
          if space2 a b then trimLeft s2 else
          match s2 with
          | EmptyString => s
          | String c s3 => if space3 a b c then trimLeft s3 else s
          end
      end
  end.

(** The same scan on the reversed string: the bytes of a rune are met
    last byte first. *)
Fixpoint trimLeftRev (s : string) : string :=
  match s with
  | EmptyString => EmptyString
  | String a s1 =>
      if asciiSpace a then trimLeftRev s1 else
      match s1 with
      | EmptyString => s
      | String b s2 =>
          if space2 b a then trimLeftRev s2 else
          match s2 with
          | EmptyString => s
          | String c s3 => if space3 c b a then trimLeftRev s3 else s
          end
      end
  end.

Definition trimRight (s : string) : string :=
  String.rev (trimLeftRev (String.rev s)).

(** [strings.TrimSpace(s)] *)
Definition TrimSpace (s : string) : string := trimRight (trimLeft s).

Definition isDigit (c : ascii) : bool := ((48 <=? byte c) && (byte c <=? 57))%nat.

(** The value of a non-empty string of decimal digits. *)
Fixpoint digits (acc : Z) (s : string) : option Z :=
  match s with
  | EmptyString => Some acc
  | String c s' =>
      if isDigit c then digits (acc * 10 + Z.of_nat (byte c - 48)) s' else None
  end.

(** [strconv.Atoi(s)] on a 64-bit platform: an optional sign, at least one
    digit, nothing else, and a value that fits [int]. [None] stands for
    every error it returns. *)
Definition Atoi (s : string) : option Z :=
  let unsigned (t : string) :=
    match t with
    | EmptyString => None
    | _ => digits 0 t
    end in
  let checked (o : option Z) :=
    match o with
    | Some n => if ((- 2 ^ 63 <=? n) && (n <=? 2 ^ 63 - 1))%Z then Some n else None
    | None => None
    end in
  match s with
  | String "+" t => checked (unsigned t)
  | String "-" t => checked (Z.opp <$> unsigned t)
  | _ => checked (unsigned s)
  end.

(** [%d] of [fmt]. *)
Definition fmt_d (n : Z) : string := pretty n.

End GoStrings.

Export GoStrings.

(** [path/filepath] on a Unix system: the separator is [/] and there is
    no volume name. *)
Module filepath.

Definition isSep (c : ascii) : bool := (byte c =? 47)%nat.

(** The elements of a path: the pieces between separators. *)
Fixpoint elements (s : string) : list string :=
  match s with
  | EmptyString => [""]
  | String c s' =>
      if isSep c then "" :: elements s'
      else match elements s' with
           | e :: es => String c e :: es
           | [] => [String c ""]
           end
  end.

(** [strings.Join(elems, "/")] *)
Fixpoint joinSep (elems : list string) : string :=
  match elems with
  | [] => ""
  | [e] => e
  | e :: es => e ++ "/" ++ joinSep es
  end.

(** The output buffer of [Clean]: the number of leading [..] elements
    that could not be cancelled, and the real elements kept so far, last
    one first. *)
Definition buffer : Type := nat * list string.

(** One turn of the loop of [Clean], on one path element. *)
Definition cleanStep (rooted : bool) (out : buffer) (e : string) : buffer :=
  if String.eqb e "" || String.eqb e "." then out
  else if String.eqb e ".." then
    match snd out with
    | _ :: kept => (fst out, kept)
    | [] => if rooted then out else (S (fst out), [])
    end
  else (fst out, e :: snd out).

Definition render (rooted : bool) (out : buffer) : string :=
  let body := joinSep (repeat ".." (fst out) ++ rev (snd out)) in
  if rooted then "/" ++ body
  else if String.eqb body "" then "." else body.

Definition isRooted (path : string) : bool :=
  match path with
  | String c _ => isSep c
  | EmptyString => false
  end.

(** [filepath.Clean(path)] *)
Definition Clean (path : string) : string :=
  if String.eqb path "" then "."
  else render (isRooted path)
         (fold_left (cleanStep (isRooted path)) (elements path) (0%nat, [])).

(** [filepath.Join(elem...)]: empty leading elements are skipped, the
    rest is joined with the separator and cleaned. *)
Fixpoint Join (elem : list string) : string :=
  match elem with
  | [] => ""
  | e :: rest => if String.eqb e "" then Join rest else Clean (joinSep elem)
  end.

(** *** Notions for reasoning about [Clean] *)

(** A string without separator. *)
Fixpoint noSep (s : string) : bool :=
  match s with
  | EmptyString => true
  | String c s' => negb (isSep c) && noSep s'
  end.

(** A path element that [Clean] keeps as it is. *)
Definition plain (e : string) : bool :=
  negb (String.eqb e "") && negb (String.eqb e ".") && negb (String.eqb e "..")
  && noSep e.

(** What the loop of [Clean] maintains: the kept elements are plain, and a
    rooted path has no leading [..]. *)
Definition tidy (rooted : bool) (out : buffer) : Prop :=
  Forall (fun e => plain e = true) (snd out) /\ (rooted = true -> fst out = 0%nat).

(** The elements a buffer is rendered from. *)
Definition rendered (out : buffer) : list string :=
  (repeat ".." (fst out) ++ rev (snd out))%list.

End filepath.

(** ** Data model *)

(** Modelled from the spec: the type [regions.Region] and its constants are
    declared in package [api/regions], which is not part of the sources at
    hand. The static table names three regions, [CN], [US] and [TAB]; Go
    rejects a map literal with a repeated constant key, so they differ.
    [OtherRegion] stands for every other value of the type. *)
Inductive Region :=
| CN
| US
| TAB
| OtherRegion (n : Z).

#[global] Instance Region_eq_dec : EqDecision Region.
Proof. solve_decision. Defined.

#[global] Instance Region_countable : Countable Region.
Proof.
  refine (inj_countable'
            (fun r => match r with
                      | CN => inl 0%nat
                      | US => inl 1%nat
                      | TAB => inl 2%nat
                      | OtherRegion n => inr n
                      end)
            (fun x => match x with
                      | inl 0%nat => CN
                      | inl 1%nat => US
                      | inl _ => TAB
                      | inr n => OtherRegion n
                      end) _).
  intros []; reflexivity.
Defined.

(** A Go [interface{}] value, as far as a JSON body needs it. *)
#[warnings="-register-all"]
Inductive value :=
| VNil
| VString (s : string)
| VInt (n : Z)
| VBool (b : bool)
| VMap (m : gmap string value).

(** The Go [error] values that travel through the client. *)
Inductive error :=
| ErrorString (msg : string)              (* errors.New, fmt.Errorf *)
| APIError (code : Z) (content : string)  (* the structured error of the API *)
| LibError (descr : string).              (* an error made by a library call *)

Inductive PanicValue :=
| PanicErr (err : error)
| PanicStr (msg : string).

Abbreviation result A := (A + error)%type.

(** [*cookiejar.Jar]: the address of a jar. *)
Definition JarRef : Type := nat.

(** [http.Cookie], the two fields the client reads. *)
Record Cookie := mkCookie { Name : string; Value : string }.

(** [grequests.RequestOptions], the fields the client sets. *)
Record RequestOptions := mkRequestOptions {
  Headers : option (gmap string string);
  JSON : value;
  CookieJar : option JarRef;
  UseCookieJar : bool;
  UserAgent : string
}.

Definition with_JSON (ro : RequestOptions) (v : value) : RequestOptions :=
  mkRequestOptions (Headers ro) v (CookieJar ro) (UseCookieJar ro) (UserAgent ro).

(** What the HTTP transport hands to grequests: [http.Response]. *)
Record RawResponse := mkRaw {
  rawStatusCode : Z;
  rawHeader : gmap string (list string);
  rawBody : string
}.

(** [grequests.Response] *)
Record Response := mkResponse {
  Ok : bool;
  StatusCode : Z;
  Header : gmap string (list string);
  Body : string
}.

(** [buildResponse] of grequests: a response is [Ok] when its code is in
    the 2xx range. *)
Definition buildResponse (raw : RawResponse) : Response :=
  mkResponse ((200 <=? rawStatusCode raw)%Z && (rawStatusCode raw <? 300)%Z)
             (rawStatusCode raw) (rawHeader raw) (rawBody raw).

(** [http.Header.Get]: the first value stored under the (canonical) key, or
    the empty string. *)
Definition Header_Get (h : gmap string (list string)) (key : string) : string :=
  match h !! key with
  | Some (v :: _) => v
  | _ => ""
  end.

Record Client := mkClient {
  client_CookieJar : JarRef;
  client_Region : Region;
  AppID : string
}.

Inductive Verb := GET | POST | PUT | DELETE | PATCH.

(** The calls that leave the process, in the order they are made. *)
Inductive Event :=
| EvHTTP (verb : Verb) (url : string) (ro : RequestOptions)
| EvGet2FACode
| EvJarNew (filename : string)
| EvJarSave (jar : JarRef)
| EvMkdirAll (dir : string).

Definition dashboardBaseUrls : gmap Region string :=
  {[ CN := "https://leancloud.cn";
     US := "https://us.leancloud.cn";
     TAB := "https://tab.leancloud.cn" ]}.

(** ** The collaborators of the client

    [W] is the state of everything outside the client: the dashboard
    server, the file system, the cookies held by each jar, the terminal.
    [URL] is [*url.URL]. The first group is read-only for the length of a
    call; the second group may change the world. *)
Record Externals (W URL : Type) := mkExternals {
  os_Getenv : string -> string;
  apps_GetAppRegion : string -> result Region;
  utils_ConfigDir : string;
  version_Version : string;
  regions_zero : Region;      (* the zero value of [regions.Region] *)
  url_Parse : string -> result URL;
  (* [resp.JSON(&result)] for [struct { Token string `json:"token"` }] *)
  Response_JSON_Token : Response -> result string;
  (* decoding a body into the structured error: its code and message *)
  Response_JSON_Error : Response -> result (Z * string);

  http_RoundTrip : Verb -> string -> RequestOptions -> W -> result RawResponse * W;
  Jar_Cookies : JarRef -> URL -> W -> list Cookie;
  Jar_Save : JarRef -> W -> option error * W;
  (* the part of [cookiejar.New] that reads the file into the new jar *)
  Jar_load : JarRef -> string -> W -> option error * W;
  os_MkdirAll : string -> W -> W;
  (* the answer typed at the prompt of [wizard.Ask] *)
  wizard_Ask : W -> string * W
}.

Arguments os_Getenv {W URL}.
Arguments apps_GetAppRegion {W URL}.
Arguments utils_ConfigDir {W URL}.
Arguments version_Version {W URL}.
Arguments regions_zero {W URL}.
Arguments url_Parse {W URL}.
Arguments Response_JSON_Token {W URL}.
Arguments Response_JSON_Error {W URL}.
Arguments http_RoundTrip {W URL}.
Arguments Jar_Cookies {W URL}.
Arguments Jar_Save {W URL}.
Arguments Jar_load {W URL}.
Arguments os_MkdirAll {W URL}.
Arguments wizard_Ask {W URL}.

(** ** The machine: state, outcome, and the monad of a call *)

Inductive Outcome (A : Type) :=
| Val (a : A)
| Panic (p : PanicValue).

Arguments Val {A}.
Arguments Panic {A}.

(** The state of a run: the world, the file name each allocated jar was
    opened on (a jar's address is its index), and the trace so far. *)
Record State (W : Type) := mkState {
  world : W;
  jars : list string;
  trace : list Event
}.

Arguments mkState {W}.
Arguments world {W}.
Arguments jars {W}.
Arguments trace {W}.

Definition M (W A : Type) : Type := State W -> Outcome A * State W.

Definition ret {W A} (a : A) : M W A := fun s => (Val a, s).

Definition bind {W A B} (m : M W A) (k : A -> M W B) : M W B :=
  fun s =>
    match m s with
    | (Val a, s') => k a s'
    | (Panic p, s') => (Panic p, s')
    end.

Definition panic {W A} (p : PanicValue) : M W A := fun s => (Panic p, s).

(** A computation without effect that may panic. *)
Definition lift {W A} (o : Outcome A) : M W A := fun s => (o, s).

Definition emit {W} (e : Event) : M W unit :=
  fun s => (Val tt, mkState (world s) (jars s) (trace s ++ [e])).

(** A library call that may change the world. *)
Definition call {W A} (f : W -> A * W) : M W A :=
  fun s => let (a, w) := f (world s) in (Val a, mkState w (jars s) (trace s)).

Declare Scope go_scope.
Delimit Scope go_scope with go.

Notation "x <- m ;; k" := (bind m (fun x => k))
  (at level 100, m at next level, k at level 200, right associativity) : go_scope.
Notation "'run' m ;; k" := (bind m (fun _ => k))
  (at level 100, m at next level, k at level 200, right associativity) : go_scope.
(** [x, err := m; if err != nil { return nil, err }; k] *)
Notation "'try' x <- m ;; k" :=
  (bind m (fun r => match r with
                    | inl x => k
                    | inr err => ret (inr err)
                    end))
  (at level 100, x name, m at next level, k at level 200, right associativity)
  : go_scope.

(** ** The client *)

Section Client.

Context {W URL : Type} (X : Externals W URL).

(** The package-level variable [Get2FACode]: whoever embeds the client
    may assign another function to it. *)
Variable Get2FACode : W -> result Z * W.

(** The value the variable is initialised with: ask at the terminal and
    read the answer as a number. *)
Definition Get2FACode_default : W -> result Z * W :=
  fun w =>
    let (result, w') := wizard_Ask X w in
    match Atoi result with
    | Some code => (inl code, w')
    | None => (inr (ErrorString "二次认证验证码应该为数字"), w')
    end.

Open Scope go_scope.

(** *** Library calls, with their events *)

(** [cookiejar.New(&cookiejar.Options{Filename: filename})]: a new jar is
    allocated and the file, when there is one, is read into it. *)
Definition cookiejar_New (filename : string) : M W (result JarRef) :=
  run emit (EvJarNew filename) ;;
  fun s =>
    let jar := length (jars s) in
    match Jar_load X jar filename (world s) with
    | (None, w) => (Val (inl jar), mkState w (jars s ++ [filename]) (trace s))
    | (Some err, w) => (Val (inr err), mkState w (jars s) (trace s))
    end.

(** [jar.Save()] *)
Definition Save (jar : JarRef) : M W (option error) :=
  run emit (EvJarSave jar) ;;
  call (Jar_Save X jar).

(** [jar.Cookies(u)] *)
Definition Cookies (jar : JarRef) (u : URL) : M W (list Cookie) :=
  fun s => (Val (Jar_Cookies X jar u (world s)), s).

(** [grequests.Get], [.Post], [.Put], [.Delete], [.Patch] *)
Definition grequests_do (verb : Verb) (url : string) (ro : RequestOptions)
  : M W (result Response) :=
  run emit (EvHTTP verb url ro) ;;
  call (fun w =>
          let (r, w') := http_RoundTrip X verb url ro w in
          (match r with
           | inl raw => inl (buildResponse raw)
           | inr err => inr err
           end, w')).

Definition call_Get2FACode : M W (result Z) :=
  run emit EvGet2FACode ;;
  call Get2FACode.

Definition MkdirAll (dir : string) : M W unit :=
  run emit (EvMkdirAll dir) ;;
  call (fun w => (tt, os_MkdirAll X dir w)).

(** Modelled from the spec: [NewErrorFromResponse] is defined in another
    file of package [api] that is not part of the sources at hand. The
    specification says that a JSON error body is parsed into a structured
    error carrying a code and a message. It does not say what happens when
    the body cannot be decoded; here the decoder's own error is returned. *)
Definition NewErrorFromResponse (resp : Response) : error :=
  match Response_JSON_Error X resp with
  | inl (code, content) => APIError code content
  | inr err => err
  end.

(** *** [newCookieJar], [NewClientByRegion], [NewClientByApp] *)

Definition newCookieJar : M W JarRef :=
  let jarFileDir := filepath.Join [utils_ConfigDir X; "leancloud"] in
  run MkdirAll jarFileDir ;;
  r <- cookiejar_New (filepath.Join [jarFileDir; "cookies"]) ;;
  match r with
  | inr err => panic (PanicErr err)
  | inl jar => ret jar
  end.

Definition NewClientByRegion (region : Region) : M W Client :=
  jar <- newCookieJar ;;
  ret (mkClient jar region "").

Definition NewClientByApp (appID : string) : M W Client :=
  jar <- newCookieJar ;;
  ret (mkClient jar (regions_zero X) appID).

(** *** [GetBaseURL] *)

Definition GetBaseURL (client : Client) : Outcome string :=
  let envBaseURL := os_Getenv X "LEANCLOUD_DASHBOARD" in
  if negb (String.eqb envBaseURL "") then Val envBaseURL
  else
    let resolved : Outcome Region :=
      if negb (String.eqb (AppID client) "") then
        match apps_GetAppRegion X (AppID client) with
        | inr err => Panic (PanicErr err)
        | inl region => Val region
        end
      else Val (client_Region client) in
    match resolved with
    | Panic p => Panic p
    | Val region =>
        match dashboardBaseUrls !! region with
        | Some url => Val url
        | None => Panic (PanicStr "invalid region")
        end
    end.

(** *** [options] *)

(** The loop over the cookies: the value of the first one named
    [XSRF-TOKEN], the empty string when the loop ends without a break. *)
Fixpoint xsrfOf (cookies : list Cookie) : string :=
  match cookies with
  | [] => ""
  | cookie :: rest =>
      if String.eqb (Name cookie) "XSRF-TOKEN" then Value cookie
      else xsrfOf rest
  end.

Definition options (client : Client) : M W (result RequestOptions) :=
  base <- lift (GetBaseURL client) ;;
  match url_Parse X base with
  | inr err => panic (PanicErr err)
  | inl u =>
      cookies <- Cookies (client_CookieJar client) u ;;
      let xsrf := xsrfOf cookies in
      ret (inl (mkRequestOptions
                  (Some {[ "X-XSRF-TOKEN" := xsrf ]})
                  VNil
                  (Some (client_CookieJar client))
                  true
                  ("LeanCloud-CLI/" ++ version_Version X)))
  end.

(** *** [checkAndDo2FA] *)

(** The classification shared by the pipeline and the exchange: the error
    returned for a response that is not [Ok]. *)
Definition errorOf (resp : Response) (method path : string) : error :=
  if HasPrefix (TrimSpace (Header_Get (Header resp) "Content-Type")) "application/json"
  then NewErrorFromResponse resp
  else ErrorString ("HTTP Error: " ++ fmt_d (StatusCode resp) ++ ", "
                      ++ method ++ " " ++ path).

Definition checkAndDo2FA (client : Client) (resp : Response)
  : M W (result Response) :=
  if negb (StatusCode resp =? 401)%Z then ret (inl resp)
  else
    try token <- ret (Response_JSON_Token X resp) ;;
    try code <- call_Get2FACode ;;
    try jar <- cookiejar_New
                 (filepath.Join [utils_ConfigDir X; "leancloud"; "cookies"]) ;;
    base <- lift (GetBaseURL client) ;;
    try resp <- grequests_do POST (base ++ "/1.1/do2fa")
                  (mkRequestOptions
                     None
                     (VMap {[ "token" := VString token; "code" := VInt code ]})
                     (Some jar) false "") ;;
    if negb (Ok resp) then ret (inr (errorOf resp "POST" "/do2fa"))
    else
      err <- Save jar ;;
      match err with
      | Some err => ret (inr err)
      | None => ret (inl resp)
      end.

(** *** [doRequest] *)

Definition verbOf (method : string) : option Verb :=
  if String.eqb method "GET" then Some GET
  else if String.eqb method "POST" then Some POST
  else if String.eqb method "PUT" then Some PUT
  else if String.eqb method "DELETE" then Some DELETE
  else if String.eqb method "PATCH" then Some PATCH
  else None.

Definition doRequest (client : Client) (method path : string)
    (params : option (gmap string value)) (opts : option RequestOptions)
  : M W (result Response) :=
  try opts <- match opts with
              | None => options client
              | Some o => ret (inl o)
              end ;;
  let opts := match params with
              | Some p => with_JSON opts (VMap p)
              | None => opts
              end in
  match verbOf method with
  | None => panic (PanicStr ("invalid method: " ++ method))
  | Some fn =>
      base <- lift (GetBaseURL client) ;;
      try resp <- grequests_do fn (base ++ path) opts ;;
      try resp <- checkAndDo2FA client resp ;;
      if negb (Ok resp) then ret (inr (errorOf resp method path))
      else
        err <- Save (client_CookieJar client) ;;
        match err with
        | Some err => ret (inr err)
        | None => ret (inl resp)
        end
  end.

(** *** [get], [post], [patch], [put], [delete] *)

Definition get client path opts := doRequest client "GET" path None opts.
Definition post client path params opts := doRequest client "POST" path params opts.
Definition patch client path params opts := doRequest client "PATCH" path params opts.
Definition put client path params opts := doRequest client "PUT" path params opts.
Definition delete client path opts := doRequest client "DELETE" path None opts.

End Client.

(** ** The vocabulary of the specification *)

Section Vocabulary.

Context {W URL : Type} (X : Externals W URL).
Variable Get2FACode : W -> result Z * W.

(** The resolution order in the words of the specification: the
    environment override first, then the region resolved from the
    application ID, then the region of the client; the region found is
    looked up in the table. [None] is the fatal configuration error. *)
Definition baseURL_spec (client : Client) : option string :=
  let override := os_Getenv X "LEANCLOUD_DASHBOARD" in
  if decide (override = "") then
    if decide (AppID client = "") then dashboardBaseUrls !! client_Region client
    else match apps_GetAppRegion X (AppID client) with
         | inl region => dashboardBaseUrls !! region
         | inr _ => None
         end
  else Some override.

(** The anti-CSRF token in the words of the specification: the value of
    the cookie named [XSRF-TOKEN], the empty string if absent. *)
Definition xsrf_spec (cookies : list Cookie) : string :=
  match List.find (fun cookie => String.eqb (Name cookie) "XSRF-TOKEN") cookies with
  | Some cookie => Value cookie
  | None => ""
  end.

(** The file of the cookie store: [<config dir>/leancloud/cookies]. *)
Definition cookiesFile : string :=
  filepath.Join [utils_ConfigDir X; "leancloud"; "cookies"].

(** The file [newCookieJar] opens for the client: the directory is
    joined first, the file name second. *)
Definition clientCookiesFile : string :=
  filepath.Join [filepath.Join [utils_ConfigDir X; "leancloud"]; "cookies"].

(** The network calls of a trace, in order. *)
Definition http_events (tr : list Event) : list (Verb * string * RequestOptions) :=
  omap (fun e => match e with
                 | EvHTTP verb url ro => Some (verb, url, ro)
                 | _ => None
                 end) tr.

(** The jars saved by a trace, in order. *)
Definition saves (tr : list Event) : list JarRef :=
  omap (fun e => match e with
                 | EvJarSave jar => Some jar
                 | _ => None
                 end) tr.

(** The options of the POST requests a trace sends to [url], in order. *)
Definition posts_to (url : string) (tr : list Event) : list RequestOptions :=
  omap (fun e => match e with
                 | EvHTTP POST u ro => if String.eqb u url then Some ro else None
                 | _ => None
                 end) tr.


(** The two stages of [doRequest]. The first one, up to the call of the
    transport function, is the dispatch of the caller's request: *)
Definition dispatch (client : Client) (method path : string)
    (params : option (gmap string value)) (opts : option RequestOptions)
  : M W (result Response) :=
  (try opts <- match opts with
               | None => options X client
               | Some o => ret (inl o)
               end ;;
   let opts := match params with
               | Some p => with_JSON opts (VMap p)
               | None => opts
               end in
   match verbOf method with
   | None => panic (PanicStr ("invalid method: " ++ method))
   | Some fn =>
       base <- lift (GetBaseURL X client) ;;
       grequests_do X fn (base ++ path) opts
   end)%go.

(** the second one is what happens to the response it got. *)
Definition settle (client : Client) (method path : string) (resp : Response)
  : M W (result Response) :=
  (try resp <- checkAndDo2FA X Get2FACode client resp ;;
   if negb (Ok resp) then ret (inr (errorOf X resp method path))
   else
     err <- Save X (client_CookieJar client) ;;
     match err with
     | Some err => ret (inr err)
     | None => ret (inl resp)
     end)%go.

(** The body of the exchange request. *)
Definition exchangeBody (token : string) (code : Z) : value :=
  VMap {[ "token" := VString token; "code" := VInt code ]}.

(** The options of the exchange request, for the fresh jar [jar]. *)
Definition exchangeOptions (token : string) (code : Z) (jar : JarRef)
  : RequestOptions :=
  mkRequestOptions None (exchangeBody token code) (Some jar) false "".

(** The challenge handler, started in state [s] on the response [resp],
    got as far as posting the exchange with [token] and [code] to
    [base ++ "/1.1/do2fa"], and the dashboard answered [raw], leaving the
    world [w]. *)
Definition exchanged (client : Client) (resp : Response) (s : State W)
    (token : string) (code : Z) (base : string) (raw : RawResponse) (w : W)
  : Prop :=
  StatusCode resp = 401%Z
  /\ Response_JSON_Token X resp = inl token
  /\ GetBaseURL X client = Val base
  /\ exists w1 w2,
       Get2FACode (world s) = (inl code, w1)
       /\ Jar_load X (length (jars s)) cookiesFile w1 = (None, w2)
       /\ http_RoundTrip X POST (base ++ "/1.1/do2fa")
            (exchangeOptions token code (length (jars s))) w2 = (inl raw, w).

(** C1 in the words of the specification: a challenge that carries a
    token, answered with a numeric code, is always followed by exactly one
    POST to the exchange endpoint, with the token and the code as body. *)
Definition exchange_always_posted : Prop :=
  forall client method path params opts (s s1 : State W) resp token code w,
    dispatch client method path params opts s = (Val (inl resp), s1) ->
    StatusCode resp = 401%Z ->
    Response_JSON_Token X resp = inl token ->
    Get2FACode (world s1) = (inl code, w) ->
    exists base after ro,
      GetBaseURL X client = Val base
      /\ trace (snd (doRequest X Get2FACode client method path params opts s))
         = (trace s1 ++ after)%list
      /\ posts_to (base ++ "/1.1/do2fa") after = [ro]
      /\ JSON ro = exchangeBody token code.

(** C2 in the words of the specification: once the exchange is answered
    with a 2xx response, the handler returns that response. *)
Definition exchange_response_always_returned : Prop :=
  forall client resp (s : State W) token code base raw w,
    exchanged client resp s token code base raw w ->
    Ok (buildResponse raw) = true ->
    exists s',
      checkAndDo2FA X Get2FACode client resp s = (Val (inl (buildResponse raw)), s').

End Vocabulary.

(** ** More vocabulary: what a call adds to the trace *)

Section Effects.

Context {W URL : Type} (X : Externals W URL).

(** How often a trace asks for the two-factor code. *)
Definition prompts (tr : list Event) : nat :=
  length (omap (fun e => match e with
                         | EvGet2FACode => Some tt
                         | _ => None
                         end) tr).

(** The files on which a trace opens a jar, in order. *)
Definition opened (tr : list Event) : list string :=
  omap (fun e => match e with
                 | EvJarNew filename => Some filename
                 | _ => None
                 end) tr.

(** The directories a trace creates, in order. *)
Definition created (tr : list Event) : list string :=
  omap (fun e => match e with
                 | EvMkdirAll dir => Some dir
                 | _ => None
                 end) tr.

(** The events a call of [doRequest] may add after the caller's request
    [first]: it stops there, or saves the client's jar [main], or walks
    some way through the challenge: the prompt, the opening of the jar
    [fresh] on [file], the exchange [second], the two saves. *)
Definition walk (first second : Event) (file : string) (fresh main : JarRef)
  : list (list Event) :=
  [ [first];
    [first; EvJarSave main];
    [first; EvGet2FACode];
    [first; EvGet2FACode; EvJarNew file];
    [first; EvGet2FACode; EvJarNew file; second];
    [first; EvGet2FACode; EvJarNew file; second; EvJarSave fresh];
    [first; EvGet2FACode; EvJarNew file; second; EvJarSave fresh; EvJarSave main] ].

(** The methods [doRequest] knows. *)
Definition methods : list string := ["GET"; "POST"; "PUT"; "DELETE"; "PATCH"].

(** An answer [strconv.Atoi] can read: an optional sign and then decimal
    digits, at least one. *)
Definition numeral (s : string) : bool :=
  let body := match s with
              | String "+" t => t
              | String "-" t => t
              | _ => s
              end in
  negb (String.eqb body "") && forallb isDigit (list_ascii_of_string body).

(** The sign of an answer and what follows it. *)
Definition unsignedPart (s : string) : string :=
  match s with
  | String c t => if Ascii.eqb c "+" || Ascii.eqb c "-" then t else s
  | EmptyString => s
  end.

End Effects.

(** ** More vocabulary: where the error of a challenged call comes from *)

(** The steps of the challenge handler, and of [doRequest] after it, that
    can end a challenged call with an error. *)
Inductive Origin : Type :=
| BodyParsing            (* resp.JSON(&result) *)
| CodeAcquisition        (* Get2FACode() *)
| StoreOpening           (* cookiejar.New *)
| ExchangeCall           (* grequests.Post *)
| ExchangeClassification (* !resp.Ok in the handler *)
| ExchangeStoreSaving    (* jar.Save() *)
| ClientStoreSaving.     (* client.CookieJar.Save() *)

(** The origins the specification lists. *)
Definition listed : list Origin :=
  [BodyParsing; CodeAcquisition; ExchangeCall; ExchangeClassification].

Section Origins.

Context {W URL : Type} (X : Externals W URL).
Variable Get2FACode : W -> result Z * W.

(** [produced client resp s origin err]: the handler, started in state [s]
    on the challenge [resp], gets as far as the step [origin], and that
    step produces the error [err]. *)
Definition produced (client : Client) (resp : Response) (s : State W)
    (origin : Origin) (err : error) : Prop :=
  match origin with
  | BodyParsing => Response_JSON_Token X resp = inr err
  | CodeAcquisition =>
      exists token w,
        Response_JSON_Token X resp = inl token
        /\ Get2FACode (world s) = (inr err, w)
  | StoreOpening =>
      exists token code w1 w2,
        Response_JSON_Token X resp = inl token
        /\ Get2FACode (world s) = (inl code, w1)
        /\ Jar_load X (length (jars s)) (cookiesFile X) w1 = (Some err, w2)
  | ExchangeCall =>
      exists token code base w1 w2 w,
        Response_JSON_Token X resp = inl token
        /\ GetBaseURL X client = Val base
        /\ Get2FACode (world s) = (inl code, w1)
        /\ Jar_load X (length (jars s)) (cookiesFile X) w1 = (None, w2)
        /\ http_RoundTrip X POST (base ++ "/1.1/do2fa")
             (exchangeOptions token code (length (jars s))) w2 = (inr err, w)
  | ExchangeClassification =>
      exists token code base raw w,
        exchanged X Get2FACode client resp s token code base raw w
        /\ Ok (buildResponse raw) = false
        /\ err = errorOf X (buildResponse raw) "POST" "/do2fa"
  | ExchangeStoreSaving =>
      exists token code base raw w w',
        exchanged X Get2FACode client resp s token code base raw w
        /\ Ok (buildResponse raw) = true
        /\ Jar_Save X (length (jars s)) w = (Some err, w')
  | ClientStoreSaving =>
      exists token code base raw w w4 w5,
        exchanged X Get2FACode client resp s token code base raw w
        /\ Ok (buildResponse raw) = true
        /\ Jar_Save X (length (jars s)) w = (None, w4)
        /\ Jar_Save X (client_CookieJar client) w4 = (Some err, w5)
  end.

(** C3 in the words of the specification: a request answered with 401 ends
    with the response of the exchange, or with an error from one of the
    four listed origins. *)
Definition challenge_resolved_or_listed_error : Prop :=
  forall client method path params opts (s s1 : State W) resp0,
    dispatch X client method path params opts s = (Val (inl resp0), s1) ->
    StatusCode resp0 = 401%Z ->
    (exists token code base raw w s',
        exchanged X Get2FACode client resp0 s1 token code base raw w
        /\ doRequest X Get2FACode client method path params opts s
           = (Val (inl (buildResponse raw)), s'))
    \/ (exists origin err s',
           In origin listed
           /\ produced client resp0 s1 origin err
           /\ doRequest X Get2FACode client method path params opts s
              = (Val (inr err), s')).

(** C5 in the words of the specification: every response of a call that is
    neither 2xx nor 401, the answer to the caller's request or the answer
    to the exchange, ends the call with the structured error when it is
    JSON-typed, and otherwise with the generic error that has the status
    code, and the method and the path of the request. *)
Definition every_response_classified_by_request : Prop :=
  forall client method path params opts (s s1 : State W) resp0 resp,
    dispatch X client method path params opts s = (Val (inl resp0), s1) ->
    (resp = resp0
     \/ exists token code base raw w,
          exchanged X Get2FACode client resp0 s1 token code base raw w
          /\ resp = buildResponse raw) ->
    ~ (200 <= StatusCode resp < 300)%Z ->
    StatusCode resp <> 401%Z ->
    exists err s',
      doRequest X Get2FACode client method path params opts s = (Val (inr err), s')
      /\ err = if HasPrefix (TrimSpace (Header_Get (Header resp) "Content-Type"))
                    "application/json"
               then NewErrorFromResponse X resp
               else ErrorString ("HTTP Error: " ++ fmt_d (StatusCode resp) ++ ", "
                                   ++ method ++ " " ++ path).

End Origins.

(** ** A concrete world, for running the client

    The dashboard answers from a script, the user types a fixed answer at
    the prompt, and chosen jars fail to load or to save. The bodies are
    decoded by a small reader that knows the two shapes the dashboard
    sends. *)
Module Demo.

Record World := mkWorld {
  server : list (result RawResponse); (* the answers still to come *)
  typed : string;                     (* the answer typed at the prompt *)
  unreadable : bool;                  (* the cookie file cannot be read *)
  unwritable : list JarRef            (* the jars whose Save fails *)
}.

Definition dq : string := String (ascii_of_nat 34) "".

(** [between pre post s]: the part of [s] after [pre] and before the first
    [post] that follows. *)
Definition between (pre post s : string) : option string :=
  if String.prefix pre s then
    let rest := String.substring (String.length pre)
                  (String.length s - String.length pre) s in
    match String.index 0 post rest with
    | Some n => Some (String.substring 0 n rest)
    | None => None
    end
  else None.

Definition tokenOf (resp : Response) : result string :=
  match between ("{" ++ dq ++ "token" ++ dq ++ ":" ++ dq) (dq ++ "}") (Body resp) with
  | Some t => inl t
  | None => inr (LibError "invalid character")
  end.

Definition errorBodyOf (resp : Response) : result (Z * string) :=
  match between ("{" ++ dq ++ "code" ++ dq ++ ":") "," (Body resp),
        between ("," ++ dq ++ "error" ++ dq ++ ":" ++ dq) (dq ++ "}")
          (match String.index 0 "," (Body resp) with
           | Some n => String.substring n (String.length (Body resp) - n) (Body resp)
           | None => ""
           end) with
  | Some c, Some m =>
      match Atoi c with
      | Some code => inl (code, m)
      | None => inr (LibError "cannot unmarshal")
      end
  | _, _ => inr (LibError "invalid character")
  end.

Definition cookiesOf (u : string) : list Cookie :=
  if String.prefix "https://" u
  then [mkCookie "uluru_user" "u1"; mkCookie "XSRF-TOKEN" "x1"; mkCookie "XSRF-TOKEN" "x2"]
  else [mkCookie "uluru_user" "u1"].

(** The collaborators, for a given value of the environment variable. *)
Definition externals (env : string) : Externals World string :=
  {| os_Getenv := fun name =>
       if String.eqb name "LEANCLOUD_DASHBOARD" then env else "";
     apps_GetAppRegion := fun appID =>
       if String.eqb appID "app-us" then inl US
       else if String.eqb appID "app-eu" then inl (OtherRegion 7)
       else inr (LibError "app not found");
     utils_ConfigDir := "/home/dev/.config";
     version_Version := "0.3.0";
     regions_zero := OtherRegion 0;
     url_Parse := fun raw =>
       if String.prefix "%" raw then inr (LibError "invalid URL escape")
       else inl raw;
     Response_JSON_Token := tokenOf;
     Response_JSON_Error := errorBodyOf;
     http_RoundTrip := fun _ _ _ w =>
       match server w with
       | [] => (inr (LibError "connection refused"), w)
       | r :: rest => (r, mkWorld rest (typed w) (unreadable w) (unwritable w))
       end;
     Jar_Cookies := fun _ u _ => cookiesOf u;
     Jar_Save := fun jar w =>
       (if bool_decide (jar ∈ unwritable w) then Some (LibError "cannot save")
        else None, w);
     Jar_load := fun _ _ w =>
       (if unreadable w then Some (LibError "cannot load cookies") else None, w);
     os_MkdirAll := fun _ w => w;
     wizard_Ask := fun w => (typed w, w) |}.

Definition json : gmap string (list string) :=
  {[ "Content-Type" := ["application/json; charset=utf-8"] ]}.
Definition html : gmap string (list string) :=
  {[ "Content-Type" := ["text/html"] ]}.

Definition challenge : RawResponse :=
  mkRaw 401 json ("{" ++ dq ++ "token" ++ dq ++ ":" ++ dq ++ "abc" ++ dq ++ "}").
Definition welcome : RawResponse := mkRaw 200 json "{}".
Definition badRequest : RawResponse :=
  mkRaw 400 json ("{" ++ dq ++ "code" ++ dq ++ ":1," ++ dq ++ "error" ++ dq ++ ":"
                    ++ dq ++ "bad request" ++ dq ++ "}").
Definition gatewayDown : RawResponse := mkRaw 502 html "<h1>Bad Gateway</h1>".

(** A run starts with one jar, the client's, already opened. *)
Definition start (w : World) : State World :=
  mkState w ["/home/dev/.config/leancloud/cookies"] [].

Definition client : Client := mkClient 0 CN "".

(** The runs used below: no environment override, the default hook. *)
Definition X0 : Externals World string := externals "".
Definition hook0 : World -> result Z * World := Get2FACode_default X0.

(** The dashboard challenges the request, then accepts the exchange. *)
Definition challenged : State World :=
  start (mkWorld [inl challenge; inl welcome] "123456" false []).
(** The same, but the cookie file cannot be read when the handler opens it. *)
Definition challenged_unreadable : State World :=
  start (mkWorld [inl challenge; inl welcome] "123456" true []).
(** The same, but the fresh jar (the second one allocated) cannot be saved. *)
Definition challenged_unwritable : State World :=
  start (mkWorld [inl challenge; inl welcome] "123456" false [1%nat]).
(** The dashboard rejects the request with a JSON error body, *)
Definition rejected : State World :=
  start (mkWorld [inl badRequest] "" false []).
(** or with a page of HTML. *)
Definition broken : State World :=
  start (mkWorld [inl gatewayDown] "" false []).
(** The dashboard accepts the request at once. *)
Definition accepted : State World :=
  start (mkWorld [inl welcome] "" false []).

Definition appsPath : string := "/1.1/clients/self/apps".

(** The state after the dispatch of [GET appsPath] from [s]. *)
Definition dispatched (s : State World) : State World :=
  snd (dispatch X0 client "GET" appsPath None None s).

(** A challenge whose body is not the JSON the handler expects. *)
Definition garbled : RawResponse := mkRaw 401 json "oops".
(** An answer that refuses, as a page of HTML. *)
Definition forbidden : RawResponse := mkRaw 403 html "<h1>Forbidden</h1>".

(** The dashboard challenges the request with a body that does not decode. *)
Definition challenged_garbled : State World :=
  start (mkWorld [inl garbled; inl welcome] "123456" false []).
(** The dashboard challenges the request and then refuses the exchange, *)
Definition challenged_refused : State World :=
  start (mkWorld [inl challenge; inl forbidden] "123456" false []).
(** or challenges the exchange as well, *)
Definition challenged_twice : State World :=
  start (mkWorld [inl challenge; inl challenge; inl welcome] "123456" false []).
(** or is gone when the exchange is sent. *)
Definition challenged_then_gone : State World :=
  start (mkWorld [inl challenge] "123456" false []).
(** An answer without a [Content-Type]. *)
Definition untyped : RawResponse := mkRaw 500 ∅ "boom".
Definition failing : State World := start (mkWorld [inl untyped] "" false []).

(** Options a caller may bring: a header of their own, a body, no jar. *)
Definition custom : RequestOptions :=
  mkRequestOptions (Some {[ "Accept" := "text/plain" ]}) (VString "draft")
                   None false "curl/8".

(** A process that has no jar yet. *)
Definition blank : State World := mkState (mkWorld [] "" false []) [] [].

(** The same collaborators, with a transport that, like the library,
    parses the URL it is given and refuses one that does not parse. *)
Definition strict (env : string) : Externals World string :=
  {| os_Getenv := os_Getenv (externals env);
     apps_GetAppRegion := apps_GetAppRegion (externals env);
     utils_ConfigDir := utils_ConfigDir (externals env);
     version_Version := version_Version (externals env);
     regions_zero := regions_zero (externals env);
     url_Parse := url_Parse (externals env);
     Response_JSON_Token := Response_JSON_Token (externals env);
     Response_JSON_Error := Response_JSON_Error (externals env);
     http_RoundTrip := fun verb u ro w =>
       match url_Parse (externals env) u with
       | inr err => (inr err, w)
       | inl _ => http_RoundTrip (externals env) verb u ro w
       end;
     Jar_Cookies := Jar_Cookies (externals env);
     Jar_Save := Jar_Save (externals env);
     Jar_load := Jar_load (externals env);
     os_MkdirAll := os_MkdirAll (externals env);
     wizard_Ask := wizard_Ask (externals env) |}.

End Demo.


(** ** The file of the cookie store *)

Section CookieFile.

Import filepath.

#[local] Arguments String.append !_ _ / : simpl nomatch.

Lemma elements_nonempty s : exists e es, elements s = e :: es.
Proof.
  induction s as [|c s (e & es & IH)]; cbn [elements]; [eauto|].
  destruct (isSep c); [eauto|]. rewrite IH. eauto.
Qed.

Lemma elements_noSep s : noSep s = true -> elements s = [s].
Proof.
  induction s as [|c s IH]; cbn [noSep elements]; [reflexivity|].
  intros [Hc Hs]%andb_true_iff. apply negb_true_iff in Hc.
  rewrite Hc, IH by assumption. reflexivity.
Qed.

Lemma elements_app_sep a b :
  elements (a ++ String "/" b) = (elements a ++ elements b)%list.
Proof.
  induction a as [|c a IH]; [reflexivity|].
  cbn [String.append elements]. rewrite IH.
  destruct (isSep c); [reflexivity|].
  destruct (elements_nonempty a) as (e & es & ->). reflexivity.
Qed.

Lemma elements_all_noSep s : Forall (fun e => noSep e = true) (elements s).
Proof.
  induction s as [|c s IH]; cbn [elements]; [repeat constructor|].
  destruct (isSep c) eqn:Hc; [constructor; [reflexivity|assumption]|].
  destruct (elements s) as [|e es]; [repeat constructor; cbn; rewrite Hc; reflexivity|].
  inversion IH as [|? ? He Hes]; subst.
  constructor; [cbn [noSep]; rewrite Hc, He; reflexivity|assumption].
Qed.

Lemma elements_joinSep es :
  es <> [] -> Forall (fun e => noSep e = true) es -> elements (joinSep es) = es.
Proof.
  induction es as [|e [|e' rest] IH]; intros Hne Hall; [contradiction| |].
  - inversion Hall; subst. cbn [joinSep]. apply elements_noSep. assumption.
  - inversion Hall; subst.
    change (joinSep (e :: e' :: rest)) with (e ++ String "/" (joinSep (e' :: rest))).
    rewrite elements_app_sep, elements_noSep, IH by (assumption || discriminate).
    reflexivity.
Qed.

Lemma plain_noSep e : plain e = true -> noSep e = true.
Proof. unfold plain. intros H. apply andb_true_iff in H. tauto. Qed.

Lemma cleanStep_plain rooted out e :
  plain e = true -> cleanStep rooted out e = (fst out, e :: snd out).
Proof.
  unfold plain, cleanStep. intros H.
  repeat (apply andb_true_iff in H; destruct H as [H ?]).
  rewrite negb_true_iff in *.
  repeat match goal with Heq : _ = false |- _ => rewrite Heq; clear Heq end.
  reflexivity.
Qed.

Lemma cleanStep_tidy rooted out e :
  noSep e = true -> tidy rooted out -> tidy rooted (cleanStep rooted out e).
Proof.
  intros He [Hkept Hdots]. unfold cleanStep.
  destruct (String.eqb e "") eqn:H1; [split; assumption|].
  destruct (String.eqb e ".") eqn:H2; [split; assumption|].
  cbn [orb].
  destruct (String.eqb e "..") eqn:H3.
  - destruct out as [n [|k kept]]; cbn [fst snd] in *.
    + destruct rooted; split; cbn [fst snd]; auto. discriminate.
    + inversion Hkept; subst. split; assumption.
  - split; cbn [fst snd]; [|assumption].
    constructor; [|assumption].
    unfold plain. rewrite H1, H2, H3, He. reflexivity.
Qed.

Lemma fold_tidy rooted es out :
  Forall (fun e => noSep e = true) es -> tidy rooted out ->
  tidy rooted (fold_left (cleanStep rooted) es out).
Proof.
  intros Hes. revert out.
  induction Hes as [|e es He _ IH]; intros out Hout; [assumption|].
  cbn [fold_left]. apply IH, cleanStep_tidy; assumption.
Qed.

Lemma fold_plain rooted ps out :
  Forall (fun e => plain e = true) ps ->
  fold_left (cleanStep rooted) ps out = (fst out, (rev ps ++ snd out)%list).
Proof.
  intros Hps. revert out.
  induction Hps as [|e ps He _ IH]; intros out; [destruct out; reflexivity|].
  cbn [fold_left]. rewrite cleanStep_plain, IH by assumption.
  cbn [fst snd rev]. rewrite <- app_assoc. reflexivity.
Qed.

Lemma fold_dots n m :
  fold_left (cleanStep false) (repeat ".." n) (m, []) = ((n + m)%nat, []).
Proof.
  revert m. induction n as [|n IH]; intros m; [reflexivity|].
  cbn [repeat fold_left]. change (cleanStep false (m, []) "..") with (S m, @nil string).
  rewrite IH. f_equal. lia.
Qed.

Lemma render_rendered rooted out :
  render rooted out =
    let body := joinSep (rendered out) in
    if rooted then "/" ++ body
    else if String.eqb body "" then "." else body.
Proof. reflexivity. Qed.

Lemma rendered_noSep rooted out :
  tidy rooted out -> Forall (fun e => noSep e = true) (rendered out).
Proof.
  intros [Hkept _]. unfold rendered. apply Forall_app. split.
  - apply List.Forall_forall. intros e He%repeat_spec. subst. reflexivity.
  - apply Forall_rev. eapply Forall_impl; [exact Hkept|].
    intros e. apply plain_noSep.
Qed.

(** A joined list of separator-free elements that starts with a non-empty
    one starts with a byte that is no separator. *)
Lemma joinSep_head e es :
  noSep e = true -> e <> "" ->
  exists c rest, joinSep (e :: es) = String c rest /\ isSep c = false.
Proof.
  intros He Hne. destruct e as [|c e]; [contradiction|].
  cbn [noSep] in He. apply andb_true_iff in He. destruct He as [Hc _].
  apply negb_true_iff in Hc.
  destruct es; cbn [joinSep String.append]; eauto.
Qed.

Lemma rendered_head rooted out l :
  tidy rooted out -> plain l = true ->
  exists e es, rendered (fst out, l :: snd out) = e :: es
               /\ noSep e = true /\ e <> "".
Proof.
  intros [Hkept _] Hl. unfold rendered. cbn [fst snd rev].
  destruct (fst out) as [|n]; cbn [repeat app].
  2:{ eexists _, _. split; [reflexivity|]. split; [reflexivity|discriminate]. }
  assert (Forall (fun e => plain e = true) (rev (snd out) ++ [l])) as Hall.
  { apply Forall_app. split; [apply Forall_rev; assumption|repeat constructor; assumption]. }
  destruct (rev (snd out) ++ [l])%list as [|e es] eqn:Heq.
  { destruct (rev (snd out)); discriminate. }
  inversion Hall as [|? ? He _]; subst.
  exists e, es. split; [reflexivity|]. split; [apply plain_noSep; assumption|].
  intros ->. discriminate.
Qed.

(** Cleaning a path that ends in a plain element, and then a further plain
    element appended to the result, is cleaning the path with both. *)
Lemma Clean_append d l k :
  d <> "" -> plain l = true -> plain k = true ->
  Clean (Clean (d ++ String "/" l) ++ String "/" k)
  = Clean (d ++ String "/" (l ++ String "/" k)).
Proof.
  intros Hd Hl Hk.
  destruct d as [|c0 d0]; [contradiction|].
  set (d := String c0 d0).
  set (R := isSep c0).
  set (out := fold_left (cleanStep R) (elements d) (0%nat, [])).
  assert (tidy R out) as Hout.
  { apply fold_tidy; [apply elements_all_noSep|].
    split; [constructor|reflexivity]. }
  pose proof (plain_noSep _ Hl) as Hl'. pose proof (plain_noSep _ Hk) as Hk'.
  assert (Clean (d ++ String "/" l) = render R (fst out, l :: snd out)) as Hq.
  { unfold Clean. cbn [String.append String.eqb d isRooted].
    replace (Ascii.eqb c0 c0 && String.eqb (d0 ++ String "/" l) ""
             || false)%bool with false; cycle 1.
    { destruct (d0 ++ String "/" l) eqn:Heq; [destruct d0; discriminate|].
      cbn. rewrite andb_false_r. reflexivity. }
    change (String c0 (d0 ++ String "/" l)) with (d ++ String "/" l).
    rewrite elements_app_sep, fold_left_app, elements_noSep by assumption.
    cbn [fold_left]. fold R. fold out. rewrite cleanStep_plain by assumption.
    reflexivity. }
  assert (Clean (d ++ String "/" (l ++ String "/" k))
          = render R (fst out, k :: l :: snd out)) as Hrhs.
  { unfold Clean. cbn [String.append String.eqb d isRooted].
    replace (String.eqb (String c0 (d0 ++ String "/" (l ++ String "/" k))) "")
      with false by reflexivity.
    change (String c0 (d0 ++ String "/" (l ++ String "/" k)))
      with (d ++ String "/" (l ++ String "/" k)).
    rewrite !elements_app_sep, !fold_left_app, !elements_noSep by assumption.
    cbn [fold_left]. fold R. fold out. rewrite !cleanStep_plain by assumption.
    reflexivity. }
  rewrite Hq, Hrhs. clear Hq Hrhs.
  destruct (rendered_head R out l Hout Hl) as (e & es & Hrend & He & Hene).
  destruct (joinSep_head e es He Hene) as (c & rest & Hjoin & Hc).
  pose proof (rendered_noSep R (fst out, l :: snd out)) as Hall.
  assert (tidy R (fst out, l :: snd out)) as Htidy.
  { destruct Hout as [Hkept Hdots]. split; [constructor; assumption|assumption]. }
  specialize (Hall Htidy).
  rewrite (render_rendered R (fst out, l :: snd out)). cbv zeta.
  rewrite Hrend, Hjoin.
  destruct R eqn:HR.
  - (* rooted: no leading [..] *)
    destruct Hout as [Hkept Hdots]. specialize (Hdots eq_refl).
    unfold Clean. cbn [String.append String.eqb isRooted].
    change (Ascii.eqb "/" "/") with true. cbn [andb orb].
    replace (String.eqb (String c rest ++ String "/" k) "") with false by reflexivity.
    change (isSep "/") with true. cbv iota.
    change (String "/" (String c (rest ++ String "/" k)))
      with (String "/" (String c rest) ++ String "/" k).
    rewrite elements_app_sep, fold_left_app, (elements_noSep k) by assumption.
    change (elements (String "/" (String c rest)))
      with ("" :: elements (String c rest)).
    rewrite <- Hjoin, <- Hrend, elements_joinSep
      by (assumption || (rewrite Hrend; discriminate)).
    cbn [fold_left]. change (cleanStep true (0%nat, []) "") with (0%nat, @nil string).
    unfold rendered. cbn [fst snd]. rewrite Hdots. cbn [repeat app].
    rewrite fold_plain.
    2:{ apply Forall_rev. constructor; assumption. }
    cbn [fst snd fold_left]. rewrite cleanStep_plain by assumption.
    cbn [fst snd]. rewrite rev_involutive, app_nil_r. reflexivity.
  - (* not rooted *)
    replace (String.eqb (String c rest) "") with false by reflexivity.
    unfold Clean. cbn [String.append String.eqb isRooted]. rewrite Hc.
    change (String c (rest ++ String "/" k)) with (String c rest ++ String "/" k).
    rewrite elements_app_sep, fold_left_app, (elements_noSep k) by assumption.
    rewrite <- Hjoin, <- Hrend, elements_joinSep
      by (assumption || (rewrite Hrend; discriminate)).
    cbn [fold_left].
    unfold rendered. cbn [fst snd]. rewrite fold_left_app, fold_dots.
    rewrite fold_plain.
    2:{ apply Forall_rev. destruct Hout. constructor; assumption. }
    cbn [fst snd]. rewrite cleanStep_plain by assumption.
    cbn [fst snd]. rewrite rev_involutive, app_nil_r, Nat.add_0_r. reflexivity.
Qed.

Lemma Clean_nonempty path : Clean path <> "".
Proof.
  unfold Clean, render.
  destruct (String.eqb path ""); [discriminate|].
  destruct (isRooted path); [discriminate|].
  destruct (String.eqb_spec (joinSep (repeat ".." (fst (fold_left (cleanStep false)
                                                      (elements path) (0%nat, [])))
                                      ++ rev (snd (fold_left (cleanStep false)
                                                     (elements path) (0%nat, []))))) "");
    [discriminate|assumption].
Qed.

(** The name [newCookieJar] builds in two steps is the name the challenge
    handler builds in one. *)
Lemma Join_nested (dir : string) :
  Join [Join [dir; "leancloud"]; "cookies"] = Join [dir; "leancloud"; "cookies"].
Proof.
  destruct (String.eqb_spec dir "") as [->|Hne]; [reflexivity|].
  assert (Join [dir; "leancloud"] = Clean (dir ++ String "/" "leancloud")) as Hin.
  { cbn [Join]. apply String.eqb_neq in Hne. rewrite Hne. reflexivity. }
  assert (Join [dir; "leancloud"; "cookies"]
          = Clean (dir ++ String "/" ("leancloud" ++ String "/" "cookies"))) as Hout.
  { cbn [Join]. apply String.eqb_neq in Hne. rewrite Hne. reflexivity. }
  rewrite Hout, Hin. cbn [Join].
  pose proof (Clean_nonempty (dir ++ String "/" "leancloud")) as Hq.
  apply String.eqb_neq in Hq. rewrite Hq.
  change (joinSep [Clean (dir ++ String "/" "leancloud"); "cookies"])
    with (Clean (dir ++ String "/" "leancloud") ++ String "/" "cookies").
  apply Clean_append; [assumption|reflexivity|reflexivity].
Qed.

End CookieFile.

(** ** Base URL resolution *)

Section BaseURL.

Context {W URL : Type} (X : Externals W URL).

Lemma dashboardBaseUrls_lookup (region : Region) :
  dashboardBaseUrls !! region =
    match region with
    | CN => Some "https://leancloud.cn"
    | US => Some "https://us.leancloud.cn"
    | TAB => Some "https://tab.leancloud.cn"
    | OtherRegion _ => None
    end.
Proof.
  unfold dashboardBaseUrls.
  destruct region; simplify_map_eq; reflexivity.
Qed.

Lemma eqb_empty (s : string) : String.eqb s "" = bool_decide (s = "").
Proof.
  destruct (String.eqb_spec s ""); [rewrite bool_decide_eq_true_2|
                                     rewrite bool_decide_eq_false_2]; auto.
Qed.

Lemma GetBaseURL_override (client : Client) :
  os_Getenv X "LEANCLOUD_DASHBOARD" <> "" ->
  GetBaseURL X client = Val (os_Getenv X "LEANCLOUD_DASHBOARD").
Proof.
  intros Hne. unfold GetBaseURL.
  rewrite eqb_empty, bool_decide_eq_false_2; auto.
Qed.

Lemma GetBaseURL_app (client : Client) :
  os_Getenv X "LEANCLOUD_DASHBOARD" = "" ->
  AppID client <> "" ->
  GetBaseURL X client =
    match apps_GetAppRegion X (AppID client) with
    | inr err => Panic (PanicErr err)
    | inl region =>
        match dashboardBaseUrls !! region with
        | Some url => Val url
        | None => Panic (PanicStr "invalid region")
        end
    end.
Proof.
  intros Henv Happ. unfold GetBaseURL.
  rewrite Henv. simpl.
  rewrite eqb_empty, bool_decide_eq_false_2 by auto. simpl.
  destruct (apps_GetAppRegion X (AppID client)); reflexivity.
Qed.

Lemma GetBaseURL_region (client : Client) :
  os_Getenv X "LEANCLOUD_DASHBOARD" = "" ->
  AppID client = "" ->
  GetBaseURL X client =
    match dashboardBaseUrls !! client_Region client with
    | Some url => Val url
    | None => Panic (PanicStr "invalid region")
    end.
Proof.
  intros Henv Happ. unfold GetBaseURL.
  rewrite Henv, Happ. reflexivity.
Qed.

(** The code refines the resolution order of the specification: it
    returns the URL the specification names, and panics exactly when the
    specification has a fatal error. *)
Lemma GetBaseURL_refines (client : Client) :
  match baseURL_spec X client with
  | Some url => GetBaseURL X client = Val url
  | None => exists p, GetBaseURL X client = Panic p
  end.
Proof.
  unfold baseURL_spec.
  destruct (decide (os_Getenv X "LEANCLOUD_DASHBOARD" = "")) as [Henv|Henv].
  - destruct (decide (AppID client = "")) as [Happ|Happ].
    + rewrite GetBaseURL_region by assumption.
      destruct (dashboardBaseUrls !! client_Region client); eauto.
    + rewrite GetBaseURL_app by assumption.
      destruct (apps_GetAppRegion X (AppID client)) as [region|err]; eauto.
      destruct (dashboardBaseUrls !! region); eauto.
  - apply GetBaseURL_override. assumption.
Qed.

(** C6. [GetBaseURL] follows the priority order: a non-empty
    [LEANCLOUD_DASHBOARD] is returned whatever the region and the
    application ID are; otherwise a client with an application ID has it
    resolved, and a failure of the resolver is a panic carrying the
    resolver's error; otherwise, or after resolution, the region is looked
    up in the static table, and a region that is not in the table is the
    panic [invalid region], never a URL. *)
Theorem GetBaseURL_priority (client : Client) :
  let override := os_Getenv X "LEANCLOUD_DASHBOARD" in
  (override <> "" -> GetBaseURL X client = Val override)
  /\ (override = "" -> AppID client <> "" ->
      forall err, apps_GetAppRegion X (AppID client) = inr err ->
                  GetBaseURL X client = Panic (PanicErr err))
  /\ (override = "" ->
      forall region,
        (AppID client <> "" /\ apps_GetAppRegion X (AppID client) = inl region)
        \/ (AppID client = "" /\ client_Region client = region) ->
        match dashboardBaseUrls !! region with
        | Some url => GetBaseURL X client = Val url
        | None => GetBaseURL X client = Panic (PanicStr "invalid region")
        end).
Proof.
  cbv zeta. split; [|split].
  - apply GetBaseURL_override.
  - intros Henv Happ err Hres.
    rewrite GetBaseURL_app, Hres by assumption. reflexivity.
  - intros Henv region [[Happ Hres]|[Happ Hreg]].
    + rewrite GetBaseURL_app, Hres by assumption.
      destruct (dashboardBaseUrls !! region); reflexivity.
    + rewrite GetBaseURL_region, Hreg by assumption.
      destruct (dashboardBaseUrls !! region); reflexivity.
Qed.

End BaseURL.

(** ** The request pipeline *)

Section Pipeline.

Context {W URL : Type} (X : Externals W URL).
Variable Get2FACode : W -> result Z * W.

(** *** What each library call does to the state *)

Lemma bind_run {A B} (m : M W A) (k : A -> M W B) (s : State W) :
  bind m k s =
    match m s with
    | (Val a, s') => k a s'
    | (Panic p, s') => (Panic p, s')
    end.
Proof. reflexivity. Qed.

Lemma bind_ret {A B} (a : A) (k : A -> M W B) (s : State W) :
  bind (ret a) k s = k a s.
Proof. reflexivity. Qed.

Lemma grequests_do_run verb url ro (s : State W) :
  grequests_do X verb url ro s =
    (Val (match fst (http_RoundTrip X verb url ro (world s)) with
          | inl raw => inl (buildResponse raw)
          | inr err => inr err
          end),
     mkState (snd (http_RoundTrip X verb url ro (world s))) (jars s)
             (trace s ++ [EvHTTP verb url ro])).
Proof.
  unfold grequests_do, bind, emit, call. simpl.
  destruct (http_RoundTrip X verb url ro (world s)); reflexivity.
Qed.

Lemma Save_run jar (s : State W) :
  Save X jar s =
    (Val (fst (Jar_Save X jar (world s))),
     mkState (snd (Jar_Save X jar (world s))) (jars s)
             (trace s ++ [EvJarSave jar])).
Proof.
  unfold Save, bind, emit, call. simpl.
  destruct (Jar_Save X jar (world s)); reflexivity.
Qed.

Lemma call_Get2FACode_run (s : State W) :
  call_Get2FACode Get2FACode s =
    (Val (fst (Get2FACode (world s))),
     mkState (snd (Get2FACode (world s))) (jars s) (trace s ++ [EvGet2FACode])).
Proof.
  unfold call_Get2FACode, bind, emit, call. simpl.
  destruct (Get2FACode (world s)); reflexivity.
Qed.

Lemma cookiejar_New_run filename (s : State W) :
  cookiejar_New X filename s =
    let loaded := Jar_load X (length (jars s)) filename (world s) in
    match fst loaded with
    | None => (Val (inl (length (jars s))),
               mkState (snd loaded) (jars s ++ [filename])
                       (trace s ++ [EvJarNew filename]))
    | Some err => (Val (inr err),
                   mkState (snd loaded) (jars s) (trace s ++ [EvJarNew filename]))
    end.
Proof.
  unfold cookiejar_New, bind, emit. simpl.
  destruct (Jar_load X (length (jars s)) filename (world s)) as [[err|] w];
    reflexivity.
Qed.

(** [options] reads the jar and changes nothing. *)
Lemma options_run client (s : State W) :
  options X client s =
    match GetBaseURL X client with
    | Panic p => (Panic p, s)
    | Val base =>
        match url_Parse X base with
        | inr err => (Panic (PanicErr err), s)
        | inl u =>
            (Val (inl (mkRequestOptions
                         (Some {[ "X-XSRF-TOKEN" :=
                                    xsrfOf (Jar_Cookies X (client_CookieJar client) u (world s)) ]})
                         VNil (Some (client_CookieJar client)) true
                         ("LeanCloud-CLI/" ++ version_Version X))), s)
        end
    end.
Proof.
  unfold options, bind, lift, panic, Cookies, ret.
  destruct (GetBaseURL X client) as [base|p]; [|reflexivity].
  destruct (url_Parse X base); reflexivity.
Qed.

Lemma options_state client (s s' : State W) o :
  options X client s = (o, s') -> s' = s.
Proof.
  rewrite options_run.
  destruct (GetBaseURL X client) as [base|p]; [|congruence].
  destruct (url_Parse X base); congruence.
Qed.

(** *** The two stages of [doRequest] *)

Lemma doRequest_stages client method path params opts (s : State W) :
  doRequest X Get2FACode client method path params opts s =
    match dispatch X client method path params opts s with
    | (Val (inl resp), s1) => settle X Get2FACode client method path resp s1
    | (Val (inr err), s1) => (Val (inr err), s1)
    | (Panic p, s1) => (Panic p, s1)
    end.
Proof.
  unfold doRequest, dispatch, settle, bind.
  destruct (match opts with
            | Some o => ret (inl o)
            | None => options X client
            end s) as [[[o|err]|p] s0]; try reflexivity.
  destruct (verbOf method) as [fn|]; [|reflexivity].
  destruct (lift (GetBaseURL X client) s0) as [[base|p] s0']; [|reflexivity].
  destruct (grequests_do X fn (base ++ path)
              match params with
              | Some p => with_JSON o (VMap p)
              | None => o
              end s0') as [[[resp|err]|p] s1]; reflexivity.
Qed.

(** A dispatch that returns a response made exactly one network call, the
    caller's, after the base URL had been resolved. *)
Lemma dispatch_inv client method path params opts (s s1 : State W) resp :
  dispatch X client method path params opts s = (Val (inl resp), s1) ->
  exists fn base ro raw,
    verbOf method = Some fn
    /\ GetBaseURL X client = Val base
    /\ http_RoundTrip X fn (base ++ path) ro (world s) = (inl raw, world s1)
    /\ resp = buildResponse raw
    /\ jars s1 = jars s
    /\ trace s1 = (trace s ++ [EvHTTP fn (base ++ path) ro])%list.
Proof.
  unfold dispatch, bind. intros H.
  destruct (match opts with
            | Some o => ret (inl o)
            | None => options X client
            end s) as [[[o|err]|p] s0] eqn:Ho; try discriminate.
  assert (s0 = s) as ->.
  { destruct opts; [unfold ret in Ho; congruence|eapply options_state; eauto]. }
  destruct (verbOf method) as [fn|]; [|discriminate].
  unfold lift in H.
  destruct (GetBaseURL X client) as [base|p]; [|discriminate].
  rewrite grequests_do_run in H.
  destruct (http_RoundTrip X fn (base ++ path) _ (world s)) as [[raw|err] w] eqn:Hrt;
    simpl in H; [|discriminate].
  injection H as <- <-. simpl.
  eexists fn, base, _, raw. rewrite Hrt. repeat split; reflexivity.
Qed.


(** *** The challenge handler, step by step *)

Lemma checkAndDo2FA_pass client resp (s : State W) :
  StatusCode resp <> 401%Z ->
  checkAndDo2FA X Get2FACode client resp s = (Val (inl resp), s).
Proof.
  intros Hne. unfold checkAndDo2FA.
  destruct (Z.eqb_spec (StatusCode resp) 401); [contradiction|reflexivity].
Qed.

(** The run of the handler on a challenge, with the state written out
    after each call. *)
Lemma checkAndDo2FA_challenge client resp (s : State W) :
  StatusCode resp = 401%Z ->
  checkAndDo2FA X Get2FACode client resp s =
    match Response_JSON_Token X resp with
    | inr err => (Val (inr err), s)
    | inl token =>
        let asked := Get2FACode (world s) in
        let jar := length (jars s) in
        let file := cookiesFile X in
        match fst asked with
        | inr err =>
            (Val (inr err),
             mkState (snd asked) (jars s) (trace s ++ [EvGet2FACode]))
        | inl code =>
            let loaded := Jar_load X jar file (snd asked) in
            match fst loaded with
            | Some err =>
                (Val (inr err),
                 mkState (snd loaded) (jars s)
                         (trace s ++ [EvGet2FACode; EvJarNew file]))
            | None =>
                match GetBaseURL X client with
                | Panic p =>
                    (Panic p,
                     mkState (snd loaded) (jars s ++ [file])
                             (trace s ++ [EvGet2FACode; EvJarNew file]))
                | Val base =>
                    let ro := exchangeOptions token code jar in
                    let url := base ++ "/1.1/do2fa" in
                    let sent := http_RoundTrip X POST url ro (snd loaded) in
                    let tr := (trace s ++ [EvGet2FACode; EvJarNew file;
                                           EvHTTP POST url ro])%list in
                    match fst sent with
                    | inr err =>
                        (Val (inr err), mkState (snd sent) (jars s ++ [file]) tr)
                    | inl raw =>
                        if Ok (buildResponse raw) then
                          let saved := Jar_Save X jar (snd sent) in
                          (Val (match fst saved with
                                | Some err => inr err
                                | None => inl (buildResponse raw)
                                end),
                           mkState (snd saved) (jars s ++ [file])
                                   (tr ++ [EvJarSave jar]))
                        else
                          (Val (inr (errorOf X (buildResponse raw) "POST" "/do2fa")),
                           mkState (snd sent) (jars s ++ [file]) tr)
                    end
                end
            end
        end
    end.
Proof.
  intros H401. unfold checkAndDo2FA.
  rewrite H401. change (negb (401 =? 401)%Z) with false. cbv iota.
  rewrite bind_ret.
  destruct (Response_JSON_Token X resp) as [token|err]; cbv beta iota;
    [|reflexivity].
  rewrite bind_run, call_Get2FACode_run. cbv beta iota zeta.
  destruct (Get2FACode (world s)) as [[code|err] w1]; cbn [fst snd];
    cbv beta iota; [|reflexivity].
  rewrite bind_run, cookiejar_New_run. cbv beta zeta.
  cbn [world jars trace].
  fold (cookiesFile X).
  destruct (Jar_load X (length (jars s)) (cookiesFile X) w1) as [[err|] w2];
    cbn [fst snd]; cbv beta iota; rewrite <- ?app_assoc; [reflexivity|].
  rewrite bind_run. unfold lift at 1.
  destruct (GetBaseURL X client) as [base|p]; cbv beta iota; [|reflexivity].
  rewrite bind_run, grequests_do_run. cbn [world jars trace].
  unfold exchangeOptions, exchangeBody.
  destruct (http_RoundTrip X POST _ _ w2) as [[raw|err] w3];
    cbn [fst snd]; cbv beta iota; rewrite <- ?app_assoc; [|reflexivity].
  destruct (Ok (buildResponse raw)); cbn [negb]; cbv beta iota; [|reflexivity].
  rewrite bind_run, Save_run. cbn [world jars trace].
  destruct (Jar_Save X (length (jars s)) w3) as [[err|] w4];
    cbn [fst snd]; cbv beta iota; unfold ret; rewrite <- ?app_assoc; reflexivity.
Qed.

(** The second stage, in terms of the handler. *)
Lemma settle_run client method path resp (s : State W) :
  settle X Get2FACode client method path resp s =
    match checkAndDo2FA X Get2FACode client resp s with
    | (Val (inl r), s2) =>
        if Ok r then
          let saved := Jar_Save X (client_CookieJar client) (world s2) in
          (Val (match fst saved with
                | Some err => inr err
                | None => inl r
                end),
           mkState (snd saved) (jars s2)
                   (trace s2 ++ [EvJarSave (client_CookieJar client)]))
        else (Val (inr (errorOf X r method path)), s2)
    | (Val (inr err), s2) => (Val (inr err), s2)
    | (Panic p, s2) => (Panic p, s2)
    end.
Proof.
  unfold settle. rewrite bind_run.
  destruct (checkAndDo2FA X Get2FACode client resp s) as [[[r|err]|p] s2];
    try reflexivity.
  destruct (Ok r); cbn [negb]; [|reflexivity].
  rewrite bind_run, Save_run. cbv zeta.
  destruct (Jar_Save X (client_CookieJar client) (world s2)) as [[err|] w];
    reflexivity.
Qed.

(** A response that is not a challenge is classified at once. *)
Lemma settle_pass client method path resp (s : State W) :
  StatusCode resp <> 401%Z ->
  settle X Get2FACode client method path resp s =
    if Ok resp then
      let saved := Jar_Save X (client_CookieJar client) (world s) in
      (Val (match fst saved with
            | Some err => inr err
            | None => inl resp
            end),
       mkState (snd saved) (jars s)
               (trace s ++ [EvJarSave (client_CookieJar client)]))
    else (Val (inr (errorOf X resp method path)), s).
Proof.
  intros Hne. rewrite settle_run, checkAndDo2FA_pass by assumption. reflexivity.
Qed.

(** The whole second stage on a challenge, with the state written out
    after each call. *)
Lemma settle_challenge client method path resp (s : State W) :
  StatusCode resp = 401%Z ->
  settle X Get2FACode client method path resp s =
    match Response_JSON_Token X resp with
    | inr err => (Val (inr err), s)
    | inl token =>
        let asked := Get2FACode (world s) in
        let jar := length (jars s) in
        let file := cookiesFile X in
        match fst asked with
        | inr err =>
            (Val (inr err),
             mkState (snd asked) (jars s) (trace s ++ [EvGet2FACode]))
        | inl code =>
            let loaded := Jar_load X jar file (snd asked) in
            match fst loaded with
            | Some err =>
                (Val (inr err),
                 mkState (snd loaded) (jars s)
                         (trace s ++ [EvGet2FACode; EvJarNew file]))
            | None =>
                match GetBaseURL X client with
                | Panic p =>
                    (Panic p,
                     mkState (snd loaded) (jars s ++ [file])
                             (trace s ++ [EvGet2FACode; EvJarNew file]))
                | Val base =>
                    let ro := exchangeOptions token code jar in
                    let url := base ++ "/1.1/do2fa" in
                    let sent := http_RoundTrip X POST url ro (snd loaded) in
                    let tr := (trace s ++ [EvGet2FACode; EvJarNew file;
                                           EvHTTP POST url ro])%list in
                    match fst sent with
                    | inr err =>
                        (Val (inr err), mkState (snd sent) (jars s ++ [file]) tr)
                    | inl raw =>
                        if Ok (buildResponse raw) then
                          let saved := Jar_Save X jar (snd sent) in
                          match fst saved with
                          | Some err =>
                              (Val (inr err),
                               mkState (snd saved) (jars s ++ [file])
                                       (tr ++ [EvJarSave jar]))
                          | None =>
                              let kept := Jar_Save X (client_CookieJar client)
                                            (snd saved) in
                              (Val (match fst kept with
                                    | Some err => inr err
                                    | None => inl (buildResponse raw)
                                    end),
                               mkState (snd kept) (jars s ++ [file])
                                       (tr ++ [EvJarSave jar;
                                               EvJarSave (client_CookieJar client)]))
                          end
                        else
                          (Val (inr (errorOf X (buildResponse raw) "POST" "/do2fa")),
                           mkState (snd sent) (jars s ++ [file]) tr)
                    end
                end
            end
        end
    end.
Proof.
  intros H401. rewrite settle_run, checkAndDo2FA_challenge by assumption.
  cbv zeta.
  destruct (Response_JSON_Token X resp) as [token|err]; [|reflexivity].
  destruct (Get2FACode (world s)) as [[code|err] w1]; cbn [fst snd];
    [|reflexivity].
  destruct (Jar_load X (length (jars s)) (cookiesFile X) w1) as [[err|] w2];
    cbn [fst snd]; [reflexivity|].
  destruct (GetBaseURL X client) as [base|p]; [|reflexivity].
  destruct (http_RoundTrip X POST _ _ w2) as [[raw|err] w3]; cbn [fst snd];
    [|reflexivity].
  destruct (Ok (buildResponse raw)) eqn:Hok; [|reflexivity].
  destruct (Jar_Save X (length (jars s)) w3) as [[err|] w4]; cbn [fst snd];
    [reflexivity|].
  rewrite Hok. cbn [world jars trace]. rewrite <- app_assoc. reflexivity.
Qed.

Lemma http_events_app (l k : list Event) :
  http_events (l ++ k) = (http_events l ++ http_events k)%list.
Proof. apply omap_app. Qed.


End Pipeline.

(** *** Frames: what a stage can add to the trace *)

Section Frames.

Context {W URL : Type} (X : Externals W URL).
Variable Get2FACode : W -> result Z * W.

Lemma Ok_buildResponse raw :
  Ok (buildResponse raw) = true ->
  (200 <= StatusCode (buildResponse raw) < 300)%Z.
Proof. unfold buildResponse. cbn [Ok StatusCode]. lia. Qed.

Lemma not_Ok_buildResponse raw :
  Ok (buildResponse raw) = false ->
  ~ (200 <= StatusCode (buildResponse raw) < 300)%Z.
Proof. unfold buildResponse. cbn [Ok StatusCode]. lia. Qed.


(** A branch of the handler ends: the state is read off the equation, and
    what was added to the trace is what the goal asks for. *)
Ltac branch_ends :=
  let H := fresh in
  intros H; injection H as <- <-; cbn [trace];
  rewrite <- ?app_assoc, ?app_nil_r;
  first [ exists []; rewrite app_nil_r; split; [reflexivity|auto]
        | eexists; split; [reflexivity|auto] ].

(** The handler saves at most the jar it has just opened. *)
Lemma checkAndDo2FA_frame client resp (s s2 : State W) o :
  checkAndDo2FA X Get2FACode client resp s = (o, s2) ->
  exists h, trace s2 = (trace s ++ h)%list
            /\ (saves h = [] \/ saves h = [length (jars s)]).
Proof.
  destruct (decide (StatusCode resp = 401%Z)) as [H401|Hne].
  - rewrite checkAndDo2FA_challenge by assumption. cbv zeta.
    destruct (Response_JSON_Token X resp) as [token|err]; [|branch_ends].
    destruct (Get2FACode (world s)) as [[code|err] w1]; cbn [fst snd];
      [|branch_ends].
    destruct (Jar_load X (length (jars s)) (cookiesFile X) w1) as [[err|] w2];
      cbn [fst snd]; [branch_ends|].
    destruct (GetBaseURL X client) as [base|p]; [|branch_ends].
    destruct (http_RoundTrip X POST _ _ w2) as [[raw|err] w3]; cbn [fst snd];
      [|branch_ends].
    destruct (Ok (buildResponse raw)); branch_ends.
  - rewrite checkAndDo2FA_pass by assumption. branch_ends.
Qed.

(** Whatever [doRequest] returns as a success is a response built by the
    transport, and it is [Ok]. *)
Lemma doRequest_success client method path params opts (s s' : State W) resp :
  doRequest X Get2FACode client method path params opts s = (Val (inl resp), s') ->
  Ok resp = true /\ exists raw, resp = buildResponse raw.
Proof.
  rewrite doRequest_stages.
  destruct (dispatch X client method path params opts s) as [[[resp0|err]|p] s1] eqn:Hd;
    try discriminate.
  destruct (dispatch_inv X _ _ _ _ _ _ _ _ Hd)
    as (fn & base & ro & raw0 & _ & Hbase & _ & -> & _ & _).
  destruct (decide (StatusCode (buildResponse raw0) = 401%Z)) as [H401|Hne].
  - rewrite settle_challenge by assumption. cbv zeta. rewrite Hbase.
    destruct (Response_JSON_Token X _) as [token|err]; [|discriminate].
    destruct (Get2FACode (world s1)) as [[code|err] w1]; cbn [fst snd];
      [|discriminate].
    destruct (Jar_load X (length (jars s1)) (cookiesFile X) w1) as [[err|] w2];
      cbn [fst snd]; [discriminate|].
    destruct (http_RoundTrip X POST _ _ w2) as [[raw|err] w3]; cbn [fst snd];
      [|discriminate].
    destruct (Ok (buildResponse raw)) eqn:Hok; [|discriminate].
    destruct (Jar_Save X (length (jars s1)) w3) as [[err|] w4]; cbn [fst snd];
      [discriminate|].
    destruct (Jar_Save X (client_CookieJar client) w4) as [[err|] w5];
      cbn [fst snd]; [discriminate|].
    intros [= <- <-]. eauto.
  - rewrite settle_pass by assumption. cbv zeta.
    destruct (Ok (buildResponse raw0)) eqn:Hok; [|discriminate].
    destruct (Jar_Save X (client_CookieJar client) (world s1)) as [[err|] w];
      cbn [fst snd]; [discriminate|].
    intros [= <- <-]. eauto.
Qed.

End Frames.

(** ** The claims about the pipeline *)

Section Challenge.

Context {W URL : Type} (X : Externals W URL).
Variable Get2FACode : W -> result Z * W.

(** C1, as amended. When [doRequest] receives a response with status 401
    whose body decodes to the token [t]: if the code-acquisition function
    returns an error, [doRequest] returns that error and no network call
    follows; if it returns the code [c], the fresh cookie store is opened,
    and either that fails, the failure is returned and nothing is posted,
    or exactly one network call follows, the POST to
    [<base-url>/1.1/do2fa] with the JSON body [{token: t, code: c}]. The
    initial value of the hook turns an answer that is not a number into a
    validation error. *)
Theorem challenge_posts_exchange_once client method path params opts
    (s s1 : State W) resp token :
  dispatch X client method path params opts s = (Val (inl resp), s1) ->
  StatusCode resp = 401%Z ->
  Response_JSON_Token X resp = inl token ->
  (exists base after,
     GetBaseURL X client = Val base
     /\ let final := doRequest X Get2FACode client method path params opts s in
        trace (snd final) = (trace s1 ++ after)%list
        /\ match Get2FACode (world s1) with
           | (inr err, w) =>
               final = (Val (inr err), mkState w (jars s1) (trace s1 ++ [EvGet2FACode]))
               /\ http_events after = []
           | (inl code, w) =>
               match Jar_load X (length (jars s1)) (cookiesFile X) w with
               | (Some err, w') =>
                   final = (Val (inr err),
                          mkState w' (jars s1)
                                  (trace s1 ++ [EvGet2FACode; EvJarNew (cookiesFile X)]))
                   /\ http_events after = []
               | (None, _) =>
                   http_events after =
                     [(POST, base ++ "/1.1/do2fa",
                       exchangeOptions token code (length (jars s1)))]
               end
           end)
  /\ (forall w, Atoi (fst (wizard_Ask X w)) = None ->
                exists msg, fst (Get2FACode_default X w) = inr (ErrorString msg)).
Proof.
  intros Hd H401 Htok. split.
  - destruct (dispatch_inv X _ _ _ _ _ _ _ _ Hd)
      as (fn & base & ro & raw & _ & Hbase & _ & _ & _ & _).
    rewrite doRequest_stages, Hd, settle_challenge by assumption.
    rewrite Htok, Hbase. cbv zeta.
    destruct (Get2FACode (world s1)) as [[code|err] w1]; cbn [fst snd].
    2:{ exists base, [EvGet2FACode]. repeat split; reflexivity. }
    destruct (Jar_load X (length (jars s1)) (cookiesFile X) w1) as [[err|] w2];
      cbn [fst snd].
    { exists base, [EvGet2FACode; EvJarNew (cookiesFile X)].
      repeat split; reflexivity. }
    destruct (http_RoundTrip X POST _ _ w2) as [[raw'|err] w3]; cbn [fst snd].
    2:{ eexists base, _. repeat split; reflexivity. }
    destruct (Ok (buildResponse raw')).
    2:{ eexists base, _. repeat split; reflexivity. }
    destruct (Jar_Save X (length (jars s1)) w3) as [[err|] w4]; cbn [fst snd];
      rewrite <- app_assoc; eexists base, _; repeat split; reflexivity.
  - intros w Hask. unfold Get2FACode_default.
    destruct (wizard_Ask X w) as [answer w']. cbn [fst] in Hask.
    rewrite Hask. eexists. reflexivity.
Qed.

(** C2, as amended. Once the exchange is answered with a 2xx response,
    the handler saves the fresh jar and nothing else; it returns the
    exchange response in place of the challenge when the save succeeds, and
    the error of the save when it fails. No network call follows the
    exchange: the caller's request is not issued again. *)
Theorem exchange_success_substitutes client method path params opts
    (s0 s : State W) resp token code base raw w :
  dispatch X client method path params opts s0 = (Val (inl resp), s) ->
  exchanged X Get2FACode client resp s token code base raw w ->
  Ok (buildResponse raw) = true ->
  let jar := length (jars s) in
  let saved := Jar_Save X jar w in
  let tr := (trace s ++ [EvGet2FACode; EvJarNew (cookiesFile X);
                         EvHTTP POST (base ++ "/1.1/do2fa")
                           (exchangeOptions token code jar);
                         EvJarSave jar])%list in
  checkAndDo2FA X Get2FACode client resp s =
    (Val (match fst saved with
          | None => inl (buildResponse raw)
          | Some err => inr err
          end),
     mkState (snd saved) (jars s ++ [cookiesFile X]) tr)
  /\ exists rest,
       trace (snd (doRequest X Get2FACode client method path params opts s0))
       = (tr ++ rest)%list
       /\ http_events rest = [].
Proof.
  intros Hd (H401 & Htok & Hbase & w1 & w2 & Hask & Hload & Hsent) Hok.
  cbv zeta. split.
  - rewrite checkAndDo2FA_challenge by assumption.
    rewrite Htok, Hask. cbv zeta. cbn [fst snd].
    rewrite Hload, Hbase. cbn [fst snd].
    rewrite Hsent. cbn [fst snd]. rewrite Hok.
    rewrite <- app_assoc. reflexivity.
  - rewrite doRequest_stages, Hd, settle_challenge by assumption.
    rewrite Htok, Hask. cbv zeta. cbn [fst snd].
    rewrite Hload, Hbase. cbn [fst snd].
    rewrite Hsent. cbn [fst snd]. rewrite Hok.
    destruct (Jar_Save X (length (jars s)) w) as [[err|] w4]; cbn [fst snd trace].
    + exists []. rewrite app_nil_r, <- !app_assoc. split; reflexivity.
    + exists [EvJarSave (client_CookieJar client)].
      rewrite <- !app_assoc. split; reflexivity.
Qed.

(** C3. No call of [doRequest] hands a response with status 401 to its
    caller. When the dispatched request is answered with 401, the call ends
    either with the 2xx response of the exchange, or with a returned error
    that one of seven steps produced: the decoding of the challenge body,
    the acquisition of the code, the opening of the exchange cookie store,
    the exchange call, the classification of its answer, the saving of the
    exchange store, or the saving of the client's store. It neither panics
    nor returns the challenge. *)
Theorem never_a_bare_401 client method path params opts (s : State W) :
  (forall resp s',
      doRequest X Get2FACode client method path params opts s = (Val (inl resp), s') ->
      StatusCode resp <> 401%Z)
  /\ (forall resp0 s1,
         dispatch X client method path params opts s = (Val (inl resp0), s1) ->
         StatusCode resp0 = 401%Z ->
         (exists token code base raw w s',
             exchanged X Get2FACode client resp0 s1 token code base raw w
             /\ Ok (buildResponse raw) = true
             /\ doRequest X Get2FACode client method path params opts s
                = (Val (inl (buildResponse raw)), s'))
         \/ (exists origin err s',
                produced X Get2FACode client resp0 s1 origin err
                /\ doRequest X Get2FACode client method path params opts s
                   = (Val (inr err), s'))).
Proof.
  split.
  - intros resp s' Hrun.
    destruct (doRequest_success X Get2FACode _ _ _ _ _ _ _ _ Hrun) as (Hok & raw & ->).
    apply Ok_buildResponse in Hok. lia.
  - intros resp0 s1 Hd H401.
    destruct (dispatch_inv X _ _ _ _ _ _ _ _ Hd)
      as (fn & base & ro & raw0 & _ & Hbase & _ & _ & _ & _).
    rewrite doRequest_stages, Hd, settle_challenge by assumption.
    cbv zeta. rewrite Hbase.
    destruct (Response_JSON_Token X resp0) as [token|err] eqn:Htok.
    2:{ right. exists BodyParsing, err. eexists. split; [exact Htok|reflexivity]. }
    destruct (Get2FACode (world s1)) as [[code|err] w1] eqn:Hask; cbn [fst snd].
    2:{ right. exists CodeAcquisition, err. eexists.
        split; [exists token, w1; auto|reflexivity]. }
    destruct (Jar_load X (length (jars s1)) (cookiesFile X) w1) as [[err|] w2] eqn:Hload;
      cbn [fst snd].
    { right. exists StoreOpening, err. eexists.
      split; [exists token, code, w1, w2; auto|reflexivity]. }
    destruct (http_RoundTrip X POST _ _ w2) as [[raw|err] w3] eqn:Hsent;
      cbn [fst snd].
    2:{ right. exists ExchangeCall, err. eexists.
        split; [exists token, code, base, w1, w2, w3; auto 6|reflexivity]. }
    assert (exchanged X Get2FACode client resp0 s1 token code base raw w3) as Hex.
    { unfold exchanged. repeat (split; [assumption|]). exists w1, w2. auto. }
    destruct (Ok (buildResponse raw)) eqn:Hok.
    2:{ right. exists ExchangeClassification. eexists _, _.
        split; [exists token, code, base, raw, w3; auto|reflexivity]. }
    destruct (Jar_Save X (length (jars s1)) w3) as [[err|] w4] eqn:Hfresh;
      cbn [fst snd].
    { right. exists ExchangeStoreSaving, err. eexists.
      split; [exists token, code, base, raw, w3, w4; auto|reflexivity]. }
    destruct (Jar_Save X (client_CookieJar client) w4) as [[err|] w5] eqn:Hmain;
      cbn [fst snd].
    { right. exists ClientStoreSaving, err. eexists.
      split; [exists token, code, base, raw, w3, w4, w5; auto 6|reflexivity]. }
    left. exists token, code, base, raw, w3. eexists.
    split; [exact Hex|split; [exact Hok|reflexivity]].
Qed.


(** C5. When the dispatched request is answered with a status that is
    neither 2xx nor 401, [doRequest] returns an error and the state is the
    one the dispatch left. If the [Content-Type] header, once trimmed,
    begins with [application/json], the error is the one made from the
    response by [NewErrorFromResponse], the structured error with the code
    and the message of the body when the body decodes; otherwise it is the
    generic error whose text has the status code, the method and the path
    of the request. An answer to the exchange that is not 2xx, a 401
    included, is classified in the same way, but its generic error has
    [POST] and [/do2fa] where the method and the path of the request would
    be. *)
Theorem error_classification client method path params opts (s s1 : State W) resp0 :
  dispatch X client method path params opts s = (Val (inl resp0), s1) ->
  let classified (resp : Response) (verb route : string) (err : error) :=
    if HasPrefix (TrimSpace (Header_Get (Header resp) "Content-Type"))
         "application/json"
    then err = NewErrorFromResponse X resp
         /\ forall code content,
              Response_JSON_Error X resp = inl (code, content) ->
              err = APIError code content
    else err = ErrorString ("HTTP Error: " ++ fmt_d (StatusCode resp) ++ ", "
                              ++ verb ++ " " ++ route) in
  (~ (200 <= StatusCode resp0 < 300)%Z ->
   StatusCode resp0 <> 401%Z ->
   exists err,
     doRequest X Get2FACode client method path params opts s = (Val (inr err), s1)
     /\ classified resp0 method path err)
  /\ (forall token code base raw w,
         exchanged X Get2FACode client resp0 s1 token code base raw w ->
         ~ (200 <= StatusCode (buildResponse raw) < 300)%Z ->
         exists err s',
           doRequest X Get2FACode client method path params opts s
           = (Val (inr err), s')
           /\ classified (buildResponse raw) "POST" "/do2fa" err).
Proof.
  intros Hd. cbv zeta.
  assert (forall resp verb route,
             if HasPrefix (TrimSpace (Header_Get (Header resp) "Content-Type"))
                  "application/json"
             then errorOf X resp verb route = NewErrorFromResponse X resp
                  /\ forall code content,
                       Response_JSON_Error X resp = inl (code, content) ->
                       errorOf X resp verb route = APIError code content
             else errorOf X resp verb route
                  = ErrorString ("HTTP Error: " ++ fmt_d (StatusCode resp) ++ ", "
                                   ++ verb ++ " " ++ route)) as Hclass.
  { intros resp verb route. unfold errorOf.
    destruct (HasPrefix _ "application/json"); [|reflexivity].
    split; [reflexivity|].
    intros code content Hdec. unfold NewErrorFromResponse. rewrite Hdec. reflexivity. }
  split.
  - intros Hrange Hne.
    destruct (dispatch_inv X _ _ _ _ _ _ _ _ Hd)
      as (fn & base & ro & raw & _ & _ & _ & -> & _ & _).
    assert (Ok (buildResponse raw) = false) as Hok.
    { destruct (Ok (buildResponse raw)) eqn:Hok; [|reflexivity].
      apply Ok_buildResponse in Hok. contradiction. }
    rewrite doRequest_stages, Hd, settle_pass, Hok by assumption.
    eexists. split; [reflexivity|]. apply Hclass.
  - intros token code base raw w Hex Hrange.
    assert (Ok (buildResponse raw) = false) as Hok.
    { destruct (Ok (buildResponse raw)) eqn:Hok; [|reflexivity].
      apply Ok_buildResponse in Hok. contradiction. }
    destruct Hex as (H401 & Htok & Hbase & w1 & w2 & Hask & Hload & Hsent).
    rewrite doRequest_stages, Hd, settle_challenge by assumption.
    rewrite Htok, Hask. cbv zeta. cbn [fst snd].
    rewrite Hload, Hbase. cbn [fst snd].
    rewrite Hsent. cbn [fst snd]. rewrite Hok.
    eexists _, _. split; [reflexivity|]. apply Hclass.
Qed.

(** The response of the exchange is classified by the handler in the same
    way; its generic error names [POST] and [/do2fa]. *)
Lemma exchange_error_classification client resp (s : State W)
    token code base raw w :
  exchanged X Get2FACode client resp s token code base raw w ->
  Ok (buildResponse raw) = false ->
  checkAndDo2FA X Get2FACode client resp s
  = (Val (inr (errorOf X (buildResponse raw) "POST" "/do2fa")),
     mkState w (jars s ++ [cookiesFile X])
             (trace s ++ [EvGet2FACode; EvJarNew (cookiesFile X);
                          EvHTTP POST (base ++ "/1.1/do2fa")
                            (exchangeOptions token code (length (jars s)))])).
Proof.
  intros (H401 & Htok & Hbase & w1 & w2 & Hask & Hload & Hsent) Hok.
  rewrite checkAndDo2FA_challenge by assumption.
  rewrite Htok, Hask. cbv zeta. cbn [fst snd].
  rewrite Hload, Hbase. cbn [fst snd].
  rewrite Hsent. cbn [fst snd]. rewrite Hok. reflexivity.
Qed.

(** The loop of [options] computes what the specification describes. *)
Lemma xsrfOf_spec cookies : xsrfOf cookies = xsrf_spec cookies.
Proof.
  unfold xsrf_spec. induction cookies as [|cookie rest IH]; [reflexivity|].
  cbn [xsrfOf find].
  destruct (String.eqb (Name cookie) "XSRF-TOKEN"); [reflexivity|exact IH].
Qed.

Lemma xsrf_spec_absent cookies :
  Forall (fun cookie => Name cookie <> "XSRF-TOKEN") cookies ->
  xsrf_spec cookies = "".
Proof.
  unfold xsrf_spec. induction 1 as [|cookie rest Hne _ IH]; [reflexivity|].
  cbn [find]. destruct (String.eqb_spec (Name cookie) "XSRF-TOKEN"); [contradiction|].
  exact IH.
Qed.

(** The second stage only adds to the trace. *)
Lemma settle_extends client method path resp (s s2 : State W) o :
  settle X Get2FACode client method path resp s = (o, s2) ->
  exists h, trace s2 = (trace s ++ h)%list.
Proof.
  rewrite settle_run.
  destruct (checkAndDo2FA X Get2FACode client resp s) as [[[r|err]|p] s1] eqn:Hc.
  all: destruct (checkAndDo2FA_frame X Get2FACode _ _ _ _ _ Hc) as (h & Hh & _).
  2,3: intros [= <- <-]; eauto.
  destruct (Ok r); intros [= <- <-]; [|eauto].
  cbn [trace]. rewrite Hh, <- app_assoc. eauto.
Qed.

(** C8. Called without options, [doRequest] sends the request with the
    default options: the header [X-XSRF-TOKEN] holds the value of the
    cookie named [XSRF-TOKEN] among the cookies the client's jar has for
    the base URL, or the empty string when there is none, which is not an
    error; the client's jar is attached; the user agent is the fixed
    string [LeanCloud-CLI/<version>]. The body is the caller's parameters,
    when there are any. *)
Theorem default_options client method path params (s : State W) fn base u :
  verbOf method = Some fn ->
  GetBaseURL X client = Val base ->
  url_Parse X base = inl u ->
  let cookies := Jar_Cookies X (client_CookieJar client) u (world s) in
  let defaults :=
    mkRequestOptions (Some {[ "X-XSRF-TOKEN" := xsrf_spec cookies ]}) VNil
                     (Some (client_CookieJar client)) true
                     ("LeanCloud-CLI/" ++ version_Version X) in
  let sent := match params with
              | Some p => with_JSON defaults (VMap p)
              | None => defaults
              end in
  options X client s = (Val (inl defaults), s)
  /\ (Forall (fun cookie => Name cookie <> "XSRF-TOKEN") cookies ->
      Headers defaults = Some {[ "X-XSRF-TOKEN" := "" ]})
  /\ Headers sent = Headers defaults
  /\ CookieJar sent = Some (client_CookieJar client)
  /\ UserAgent sent = "LeanCloud-CLI/" ++ version_Version X
  /\ exists after,
       trace (snd (doRequest X Get2FACode client method path params None s))
       = (trace s ++ EvHTTP fn (base ++ path) sent :: after)%list.
Proof.
  intros Hverb Hbase Hparse. cbv zeta.
  assert (options X client s =
            (Val (inl (mkRequestOptions
                         (Some {[ "X-XSRF-TOKEN" :=
                                    xsrf_spec (Jar_Cookies X (client_CookieJar client) u (world s)) ]})
                         VNil (Some (client_CookieJar client)) true
                         ("LeanCloud-CLI/" ++ version_Version X))), s)) as Hopts.
  { rewrite options_run, Hbase, Hparse, xsrfOf_spec. reflexivity. }
  split; [exact Hopts|].
  split.
  { intros Habsent. rewrite xsrf_spec_absent by assumption. reflexivity. }
  split; [destruct params; reflexivity|].
  split; [destruct params; reflexivity|].
  split; [destruct params; reflexivity|].
  rewrite doRequest_stages.
  unfold dispatch. rewrite bind_run, Hopts, Hverb, bind_run.
  unfold lift at 1. rewrite Hbase, grequests_do_run.
  destruct (http_RoundTrip X fn (base ++ path) _ (world s)) as [[raw|err] w1];
    cbn [fst snd].
  - match goal with
    | |- context [settle _ _ _ _ _ ?r ?st] =>
        destruct (settle X Get2FACode client method path r st) as [o s2] eqn:Hs
    end.
    apply settle_extends in Hs. destruct Hs as (h & Hh).
    cbn [snd]. rewrite Hh. cbn [trace]. rewrite <- app_assoc. eauto.
  - exists []. reflexivity.
Qed.

(** C10. Every network call made by the challenge handler is the POST to
    the exchange endpoint, and its options hold the JSON body with the
    token and the code, and the jar just opened, and nothing else: no
    header (so no [X-XSRF-TOKEN]) and no user agent. The default options of
    the pipeline have both. *)
Theorem exchange_request_is_bare client resp (s : State W) :
  (exists added,
      trace (snd (checkAndDo2FA X Get2FACode client resp s)) = (trace s ++ added)%list
      /\ (forall verb url ro,
             In (verb, url, ro) (http_events added) ->
             verb = POST
             /\ (exists base, GetBaseURL X client = Val base
                              /\ url = base ++ "/1.1/do2fa")
             /\ (exists token code,
                    Response_JSON_Token X resp = inl token
                    /\ fst (Get2FACode (world s)) = inl code
                    /\ JSON ro = VMap {[ "token" := VString token;
                                         "code" := VInt code ]})
             /\ CookieJar ro = Some (length (jars s))
             /\ Headers ro = None
             /\ UserAgent ro = ""
             /\ UseCookieJar ro = false)
      /\ (forall token code base raw w,
             exchanged X Get2FACode client resp s token code base raw w ->
             http_events added
             = [(POST, base ++ "/1.1/do2fa",
                 exchangeOptions token code (length (jars s)))]))
  /\ (forall o s',
         options X client s = (Val (inl o), s') ->
         (exists xsrf, Headers o = Some {[ "X-XSRF-TOKEN" := xsrf ]})
         /\ UserAgent o = "LeanCloud-CLI/" ++ version_Version X).
Proof.
  split.
  - destruct (decide (StatusCode resp = 401%Z)) as [H401|Hne].
    + rewrite checkAndDo2FA_challenge by assumption. cbv zeta.
      destruct (Response_JSON_Token X resp) as [token|err] eqn:Htok.
      2:{ exists []. rewrite app_nil_r.
          split; [reflexivity|split; [intros ? ? ? []|]].
          intros ? ? ? ? ? (_ & Habs & _). congruence. }
      destruct (Get2FACode (world s)) as [[code|err] w1] eqn:Hask; cbn [fst snd].
      2:{ eexists. split; [reflexivity|split; [intros ? ? ? []|]].
          intros ? ? ? ? ? (_ & _ & _ & ? & ? & Habs & _). congruence. }
      destruct (Jar_load X (length (jars s)) (cookiesFile X) w1) as [[err|] w2] eqn:Hload;
        cbn [fst snd].
      { eexists. split; [reflexivity|split; [intros ? ? ? []|]].
        intros ? ? ? ? ? (_ & _ & _ & ? & ? & Habs & Hl & _).
        rewrite Hask in Habs. injection Habs as <- <-. congruence. }
      destruct (GetBaseURL X client) as [base|p] eqn:Hbase.
      2:{ eexists. split; [reflexivity|split; [intros ? ? ? []|]].
          intros ? ? ? ? ? (_ & _ & Habs & _). congruence. }
      assert (forall added,
                 http_events added
                 = [(POST, base ++ "/1.1/do2fa",
                     exchangeOptions token code (length (jars s)))] ->
                 (forall verb url ro,
                     In (verb, url, ro) (http_events added) ->
                     verb = POST
                     /\ (exists base0, Val base = Val base0
                                      /\ url = base0 ++ "/1.1/do2fa")
                     /\ (exists token0 code0,
                            @inl string error token = inl token0
                            /\ @inl Z error code = inl code0
                            /\ JSON ro = VMap {[ "token" := VString token0;
                                                 "code" := VInt code0 ]})
                     /\ CookieJar ro = Some (length (jars s))
                     /\ Headers ro = None
                     /\ UserAgent ro = ""
                     /\ UseCookieJar ro = false)
                 /\ (forall token0 code0 base0 raw w,
                        exchanged X Get2FACode client resp s token0 code0 base0 raw w ->
                        http_events added
                        = [(POST, base0 ++ "/1.1/do2fa",
                            exchangeOptions token0 code0 (length (jars s)))]))
        as Hshape.
      { intros added ->. split.
        - intros verb url ro [[= <- <- <-]|[]].
          repeat split; eauto.
        - intros token0 code0 base0 raw w (_ & Ht & Hb & w1' & w2' & Ha & _).
          rewrite Htok in Ht. rewrite Hbase in Hb. rewrite Hask in Ha.
          injection Ht as <-. injection Hb as <-. injection Ha as <- <-.
          reflexivity. }
      destruct (http_RoundTrip X POST _ _ w2) as [[raw|err] w3]; cbn [fst snd].
      2:{ eexists. split; [reflexivity|]. apply Hshape. reflexivity. }
      destruct (Ok (buildResponse raw)); cbn [snd trace].
      2:{ eexists. split; [reflexivity|]. apply Hshape. reflexivity. }
      rewrite <- app_assoc. eexists. split; [reflexivity|].
      apply Hshape. reflexivity.
    + rewrite checkAndDo2FA_pass by assumption.
      exists []. rewrite app_nil_r.
      split; [reflexivity|split; [intros ? ? ? []|]].
      intros ? ? ? ? ? (Habs & _). contradiction.
  - intros o s'. rewrite options_run.
    destruct (GetBaseURL X client) as [base|p]; [|discriminate].
    destruct (url_Parse X base) as [u|err]; [|discriminate].
    intros [= <- <-]. split; [eexists|]; reflexivity.
Qed.

(** *** The constructors *)

Lemma newCookieJar_run (s : State W) :
  newCookieJar X s =
    let dir := filepath.Join [utils_ConfigDir X; "leancloud"] in
    let file := clientCookiesFile X in
    let loaded := Jar_load X (length (jars s)) file (os_MkdirAll X dir (world s)) in
    let tr := (trace s ++ [EvMkdirAll dir; EvJarNew file])%list in
    match fst loaded with
    | None => (Val (length (jars s)), mkState (snd loaded) (jars s ++ [file]) tr)
    | Some err => (Panic (PanicErr err), mkState (snd loaded) (jars s) tr)
    end.
Proof.
  unfold newCookieJar. cbv zeta. rewrite bind_run.
  unfold MkdirAll at 1. rewrite bind_run. unfold emit at 1, call at 1.
  cbv beta iota. cbn [world jars trace].
  rewrite bind_run, cookiejar_New_run. cbv zeta. cbn [world jars trace].
  fold (clientCookiesFile X).
  destruct (Jar_load X (length (jars s)) (clientCookiesFile X) _) as [[err|] w];
    cbn [fst snd]; rewrite <- app_assoc; reflexivity.
Qed.

(** A client made by a constructor owns an allocated jar opened on the
    cookie file. *)
Lemma NewClientByRegion_client region (s s' : State W) client :
  NewClientByRegion X region s = (Val client, s') ->
  client = mkClient (length (jars s)) region ""
  /\ jars s' !! client_CookieJar client = Some (clientCookiesFile X).
Proof.
  unfold NewClientByRegion. rewrite bind_run, newCookieJar_run. cbv zeta.
  destruct (Jar_load X (length (jars s)) (clientCookiesFile X) _) as [[err|] w];
    cbn [fst snd]; [discriminate|].
  unfold ret. intros [= <- <-]. split; [reflexivity|].
  cbn [client_CookieJar jars]. apply list_lookup_middle. reflexivity.
Qed.

Lemma NewClientByApp_client appID (s s' : State W) client :
  NewClientByApp X appID s = (Val client, s') ->
  client = mkClient (length (jars s)) (regions_zero X) appID
  /\ jars s' !! client_CookieJar client = Some (clientCookiesFile X).
Proof.
  unfold NewClientByApp. rewrite bind_run, newCookieJar_run. cbv zeta.
  destruct (Jar_load X (length (jars s)) (clientCookiesFile X) _) as [[err|] w];
    cbn [fst snd]; [discriminate|].
  unfold ret. intros [= <- <-]. split; [reflexivity|].
  cbn [client_CookieJar jars]. apply list_lookup_middle. reflexivity.
Qed.

Lemma clientCookiesFile_cookiesFile : clientCookiesFile X = cookiesFile X.
Proof. apply Join_nested. Qed.

(** C7. A client constructed for a region of the static table, with the
    environment override unset, has the URL the table binds to that region
    as its base URL: [https://leancloud.cn] for [CN],
    [https://us.leancloud.cn] for [US], [https://tab.leancloud.cn] for
    [TAB], and these are all the regions of the table. *)
Theorem GetBaseURL_of_table_region region url (s s' : State W) client :
  os_Getenv X "LEANCLOUD_DASHBOARD" = "" ->
  dashboardBaseUrls !! region = Some url ->
  NewClientByRegion X region s = (Val client, s') ->
  GetBaseURL X client = Val url
  /\ (region = CN /\ url = "https://leancloud.cn"
      \/ region = US /\ url = "https://us.leancloud.cn"
      \/ region = TAB /\ url = "https://tab.leancloud.cn").
Proof.
  intros Henv Htable Hnew.
  apply NewClientByRegion_client in Hnew. destruct Hnew as [-> _].
  split.
  - rewrite GetBaseURL_region by (assumption || reflexivity).
    cbn [client_Region]. rewrite Htable. reflexivity.
  - rewrite dashboardBaseUrls_lookup in Htable.
    destruct region; try discriminate; injection Htable as <-; auto.
Qed.


End Challenge.

(** ** Beyond the claims: panics, options, methods *)

Section Dispatching.

Context {W URL : Type} (X : Externals W URL).
Variable Get2FACode : W -> result Z * W.

Lemma verbOf_None method : verbOf method = None <-> ~ In method methods.
Proof.
  unfold verbOf, methods. cbn [In].
  repeat match goal with
         | |- context [String.eqb method ?m] =>
             destruct (String.eqb_spec method m); [subst; split; [discriminate|tauto]|]
         end.
  split; [|reflexivity]. intros _ H.
  repeat (destruct H as [H|H]; [congruence|]). exact H.
Qed.

(** [options] ends in a panic or in options; it never returns an error. *)
Lemma options_outcome client (s s' : State W) o :
  options X client s = (o, s') ->
  s' = s /\ ((exists p, o = Panic p) \/ (exists ro, o = Val (inl ro))).
Proof.
  intros H. split; [eapply options_state; eassumption|].
  rewrite options_run in H.
  destruct (GetBaseURL X client) as [base|p]; [|injection H as <- _; eauto].
  destruct (url_Parse X base); injection H as <- _; eauto.
Qed.

(** With the options in hand, a known method and a base URL, the first
    stage is the call of the transport. *)
Lemma dispatch_supplied client method path params o (s : State W) fn base :
  verbOf method = Some fn ->
  GetBaseURL X client = Val base ->
  dispatch X client method path params (Some o) s
  = grequests_do X fn (base ++ path)
      match params with
      | Some p => with_JSON o (VMap p)
      | None => o
      end s.
Proof.
  intros Hverb Hbase. unfold dispatch.
  rewrite bind_ret, Hverb, bind_run. unfold lift. rewrite Hbase. reflexivity.
Qed.

(** A first stage that panics has done nothing, and the panic is one of
    three: the one of [GetBaseURL], the one of [url.Parse] in [options], or
    the unknown method. *)
Lemma dispatch_panic client method path params opts (s s1 : State W) p :
  dispatch X client method path params opts s = (Panic p, s1) ->
  s1 = s
  /\ (GetBaseURL X client = Panic p
      \/ (opts = None
          /\ exists base err, GetBaseURL X client = Val base
                              /\ url_Parse X base = inr err /\ p = PanicErr err)
      \/ (verbOf method = None /\ p = PanicStr ("invalid method: " ++ method))).
Proof.
  unfold dispatch. rewrite bind_run. intros H.
  destruct opts as [o|].
  - unfold ret at 1 in H. cbv beta iota in H.
    destruct (verbOf method) as [fn|].
    + rewrite bind_run in H. unfold lift in H.
      destruct (GetBaseURL X client) as [base|p'].
      * rewrite grequests_do_run in H. discriminate.
      * injection H as <- <-. auto.
    + injection H as <- <-. auto.
  - rewrite options_run in H.
    destruct (GetBaseURL X client) as [base|p'] eqn:Hbase.
    2:{ injection H as <- <-. auto. }
    destruct (url_Parse X base) as [u|err] eqn:Hparse.
    2:{ injection H as <- <-. split; [reflexivity|]. right. left. eauto 6. }
    destruct (verbOf method) as [fn|].
    + rewrite bind_run in H. unfold lift in H.
      rewrite grequests_do_run in H. discriminate.
    + injection H as <- <-. auto.
Qed.


(** With options of the caller's, the first event of the call is the
    request itself. *)
Lemma doRequest_supplied_first client method path params o (s : State W) fn base :
  verbOf method = Some fn ->
  GetBaseURL X client = Val base ->
  exists after,
    trace (snd (doRequest X Get2FACode client method path params (Some o) s))
    = (trace s ++ EvHTTP fn (base ++ path)
                    match params with
                    | Some p => with_JSON o (VMap p)
                    | None => o
                    end :: after)%list.
Proof.
  intros Hverb Hbase.
  rewrite doRequest_stages, (dispatch_supplied _ _ _ _ _ _ fn base) by assumption.
  rewrite grequests_do_run.
  destruct (http_RoundTrip X fn (base ++ path) _ (world s)) as [[raw|e] w1];
    cbn [fst snd].
  - match goal with
    | |- context [settle _ _ _ _ _ ?r ?st] =>
        destruct (settle X Get2FACode client method path r st) as [o' s2] eqn:Hs
    end.
    apply settle_extends in Hs. destruct Hs as (h & Hh).
    cbn [snd]. rewrite Hh. cbn [trace]. rewrite <- app_assoc. eauto.
  - exists []. reflexivity.
Qed.


(** X2. A method other than the five, in upper case, is a panic that
    names it. With the caller's options it is the outcome of the call
    whatever the client is; with the default options, which are built
    first, a panic of theirs comes first. Nothing is sent. *)
Theorem unknown_method_panics client method path params (s : State W) :
  ~ In method methods ->
  (forall o,
      doRequest X Get2FACode client method path params (Some o) s
      = (Panic (PanicStr ("invalid method: " ++ method)), s))
  /\ doRequest X Get2FACode client method path params None s
     = (match fst (options X client s) with
        | Panic p => Panic p
        | Val _ => Panic (PanicStr ("invalid method: " ++ method))
        end, s).
Proof.
  intros Hm. apply verbOf_None in Hm. split.
  - intros o. rewrite doRequest_stages. unfold dispatch.
    rewrite bind_ret, Hm. reflexivity.
  - rewrite doRequest_stages. unfold dispatch. rewrite bind_run.
    destruct (options X client s) as [o s0] eqn:Ho.
    destruct (options_outcome _ _ _ _ Ho) as (-> & [(p & ->)|(ro & ->)]);
      cbn [fst]; [reflexivity|].
    rewrite Hm. reflexivity.
Qed.

(** X3. When the base URL does not parse, a call without options panics
    with the error of [url.Parse] before the transport is called. The same
    call with options of the caller's does not panic: [doRequest] never
    parses the URL itself and hands it, followed by the path, to the
    function of the transport; when that function returns an error, as the
    library does for a URL it cannot parse, the call returns that error,
    and no jar is saved. *)
Theorem unparsable_base_URL client method path params (s : State W) fn base err :
  verbOf method = Some fn ->
  GetBaseURL X client = Val base ->
  url_Parse X base = inr err ->
  doRequest X Get2FACode client method path params None s = (Panic (PanicErr err), s)
  /\ forall o,
       let ro := match params with
                 | Some p => with_JSON o (VMap p)
                 | None => o
                 end in
       (exists after,
           trace (snd (doRequest X Get2FACode client method path params (Some o) s))
           = (trace s ++ EvHTTP fn (base ++ path) ro :: after)%list)
       /\ (forall refusal w,
              http_RoundTrip X fn (base ++ path) ro (world s) = (inr refusal, w) ->
              doRequest X Get2FACode client method path params (Some o) s
              = (Val (inr refusal),
                 mkState w (jars s) (trace s ++ [EvHTTP fn (base ++ path) ro]))).
Proof.
  intros Hverb Hbase Hparse. split.
  - rewrite doRequest_stages. unfold dispatch.
    rewrite bind_run, options_run, Hbase, Hparse. reflexivity.
  - intros o. cbv zeta. split.
    + apply doRequest_supplied_first; assumption.
    + intros refusal w Hsent.
      rewrite doRequest_stages, (dispatch_supplied _ _ _ _ _ _ fn base) by assumption.
      rewrite grequests_do_run, Hsent. reflexivity.
Qed.

(** X4. Options of the caller's are sent as they are, with one change:
    parameters, when there are any, replace the JSON body, also one the
    caller had set. No header is added, so no [X-XSRF-TOKEN]. *)
Theorem supplied_options_sent client method path params o (s : State W) fn base :
  verbOf method = Some fn ->
  GetBaseURL X client = Val base ->
  exists sent after,
    trace (snd (doRequest X Get2FACode client method path params (Some o) s))
    = (trace s ++ EvHTTP fn (base ++ path) sent :: after)%list
    /\ Headers sent = Headers o
    /\ CookieJar sent = CookieJar o
    /\ UseCookieJar sent = UseCookieJar o
    /\ UserAgent sent = UserAgent o
    /\ JSON sent = match params with
                   | Some p => VMap p
                   | None => JSON o
                   end.
Proof.
  intros Hverb Hbase.
  exists (match params with Some p => with_JSON o (VMap p) | None => o end).
  destruct (doRequest_supplied_first client method path params o s fn base
              Hverb Hbase) as (after & Hafter).
  exists after. split; [exact Hafter|].
  destruct params; repeat split; reflexivity.
Qed.

End Dispatching.

(** ** Beyond the claims: what a call may do, and in which order *)

Section Walks.

Context {W URL : Type} (X : Externals W URL).
Variable Get2FACode : W -> result Z * W.

(** The first stage either panics, having done nothing, or makes the
    caller's request and nothing else. *)
Lemma dispatch_cases client method path params opts (s s1 : State W) o :
  dispatch X client method path params opts s = (o, s1) ->
  ((exists p, o = Panic p) /\ s1 = s)
  \/ (exists fn base ro r,
         verbOf method = Some fn
         /\ GetBaseURL X client = Val base
         /\ o = Val r
         /\ jars s1 = jars s
         /\ trace s1 = (trace s ++ [EvHTTP fn (base ++ path) ro])%list).
Proof.
  destruct o as [[resp|err]|p].
  - intros Hd. right.
    destruct (dispatch_inv X _ _ _ _ _ _ _ _ Hd)
      as (fn & base & ro & raw & Hverb & Hbase & _ & _ & Hjars & Htr).
    exists fn, base, ro. eauto 10.
  - unfold dispatch. rewrite bind_run. intros H. right.
    destruct (match opts with
              | Some o => ret (inl o)
              | None => options X client
              end s) as [[[ro|err']|p] s0] eqn:Ho.
    + assert (s0 = s) as ->
          by (destruct opts; [unfold ret in Ho; congruence|eapply options_state; eauto]).
      destruct (verbOf method) as [fn|]; [|discriminate].
      rewrite bind_run in H. unfold lift in H.
      destruct (GetBaseURL X client) as [base|p]; [|discriminate].
      rewrite grequests_do_run in H. injection H as _ <-.
      eexists fn, base, _, _. repeat split; reflexivity.
    + destruct opts; [unfold ret in Ho; discriminate|].
      apply options_outcome in Ho. destruct Ho as (_ & [(p & ?)|(ro & ?)]); discriminate.
    + discriminate.
  - intros Hd. left. split; [eauto|].
    eapply dispatch_panic. eassumption.
Qed.

(** What the second stage adds, started on the response [resp] with the
    base URL known. *)
Lemma settle_walk client method path resp (s s2 : State W) o base :
  GetBaseURL X client = Val base ->
  settle X Get2FACode client method path resp s = (o, s2) ->
  exists h token code,
    trace s2 = (trace s ++ h)%list
    /\ (forall first,
           In (first :: h)
              (walk first (EvHTTP POST (base ++ "/1.1/do2fa")
                             (exchangeOptions token code (length (jars s))))
                    (cookiesFile X) (length (jars s)) (client_CookieJar client)))
    /\ (jars s2 = jars s \/ jars s2 = (jars s ++ [cookiesFile X])%list).
Proof.
  intros Hbase.
  destruct (decide (StatusCode resp = 401%Z)) as [H401|Hne].
  - rewrite settle_challenge by assumption. cbv zeta. rewrite Hbase.
    destruct (Response_JSON_Token X resp) as [token|err].
    2:{ intros [= <- <-]. exists [], "", 0%Z. rewrite app_nil_r.
        split; [reflexivity|]. split; [intros; cbn; auto|auto]. }
    destruct (Get2FACode (world s)) as [[code|err] w1]; cbn [fst snd].
    2:{ intros [= <- <-]. eexists _, token, 0%Z.
        split; [reflexivity|]. split; [intros; cbn; auto|auto]. }
    destruct (Jar_load X _ _ w1) as [[err|] w2]; cbn [fst snd].
    { intros [= <- <-]. eexists _, token, code.
      split; [reflexivity|]. split; [intros; cbn; auto 6|auto]. }
    destruct (http_RoundTrip X POST _ _ w2) as [[raw|err] w3]; cbn [fst snd].
    2:{ intros [= <- <-]. eexists _, token, code.
        split; [reflexivity|]. split; [intros; cbn; auto 7|auto]. }
    destruct (Ok (buildResponse raw)).
    2:{ intros [= <- <-]. eexists _, token, code.
        split; [reflexivity|]. split; [intros; cbn; auto 7|auto]. }
    destruct (Jar_Save X _ w3) as [[err|] w4]; cbn [fst snd].
    + intros [= <- <-]. cbn [trace jars]. rewrite <- app_assoc.
      eexists _, token, code.
      split; [reflexivity|]. split; [intros; cbn; auto 8|auto].
    + intros [= <- <-]. cbn [trace jars]. rewrite <- app_assoc.
      eexists _, token, code.
      split; [reflexivity|]. split; [intros; cbn; auto 9|auto].
  - rewrite settle_pass by assumption.
    destruct (Ok resp); intros [= <- <-]; cbn [trace jars].
    + eexists _, "", 0%Z. split; [reflexivity|]. split; [intros; cbn; auto|auto].
    + exists [], "", 0%Z. rewrite app_nil_r.
      split; [reflexivity|]. split; [intros; cbn; auto|auto].
Qed.

(** X5. Whatever its outcome, a call of [doRequest] adds to the trace
    either nothing or one of seven sequences that start with the caller's
    request: the request alone; the request and the save of the client's
    jar; or the request, the prompt, the opening of a jar on the cookie
    file, the exchange, the save of that jar and the save of the client's
    jar, cut after any step from the prompt on. The heap of jars is the
    same afterwards or has the one jar more. *)
Theorem doRequest_walk client method path params opts (s s' : State W) o :
  doRequest X Get2FACode client method path params opts s = (o, s') ->
  exists added,
    trace s' = (trace s ++ added)%list
    /\ (jars s' = jars s \/ jars s' = (jars s ++ [cookiesFile X])%list)
    /\ (added = []
        \/ exists fn base ro token code,
             verbOf method = Some fn
             /\ GetBaseURL X client = Val base
             /\ In added
                  (walk (EvHTTP fn (base ++ path) ro)
                        (EvHTTP POST (base ++ "/1.1/do2fa")
                           (exchangeOptions token code (length (jars s))))
                        (cookiesFile X) (length (jars s)) (client_CookieJar client))).
Proof.
  rewrite doRequest_stages.
  destruct (dispatch X client method path params opts s) as [o1 s1] eqn:Hd.
  destruct (dispatch_cases _ _ _ _ _ _ _ _ Hd)
    as [[(p & ->) ->]|(fn & base & ro & r & Hverb & Hbase & -> & Hjars & Htr)].
  - intros [= <- <-]. exists []. rewrite app_nil_r. auto.
  - destruct r as [resp|err].
    + intros Hs.
      destruct (settle_walk _ _ _ _ _ _ _ _ Hbase Hs)
        as (h & token & code & Hh & Hwalk & Hj).
      exists (EvHTTP fn (base ++ path) ro :: h).
      rewrite Hh, Htr, <- app_assoc. split; [reflexivity|].
      rewrite Hjars in Hj, Hwalk. split; [exact Hj|].
      right. exists fn, base, ro, token, code. auto.
    + intros [= <- <-]. exists [EvHTTP fn (base ++ path) ro].
      split; [exact Htr|]. split; [auto|].
      right. exists fn, base, ro, "", 0%Z.
      repeat split; try assumption. cbn. auto.
Qed.

(** X6. No call of [doRequest] makes more than two network calls, asks
    for the code more than once, opens more than one jar, saves more than
    two, or creates a directory: there is no retry. *)
Theorem doRequest_bounds client method path params opts (s s' : State W) o :
  doRequest X Get2FACode client method path params opts s = (o, s') ->
  exists added,
    trace s' = (trace s ++ added)%list
    /\ (length (http_events added) <= 2)%nat
    /\ (prompts added <= 1)%nat
    /\ (length (opened added) <= 1)%nat
    /\ (length (saves added) <= 2)%nat
    /\ created added = [].
Proof.
  rewrite doRequest_stages.
  destruct (dispatch X client method path params opts s) as [o1 s1] eqn:Hd.
  destruct (dispatch_cases _ _ _ _ _ _ _ _ Hd)
    as [[(p & ->) ->]|(fn & base & ro & r & Hverb & Hbase & -> & Hjars & Htr)].
  - intros [= <- <-]. exists []. rewrite app_nil_r. cbn. repeat split; lia.
  - destruct r as [resp|err].
    + intros Hs.
      destruct (settle_walk _ _ _ _ _ _ _ _ Hbase Hs)
        as (h & token & code & Hh & Hwalk & _).
      exists (EvHTTP fn (base ++ path) ro :: h).
      rewrite Hh, Htr, <- app_assoc. split; [reflexivity|].
      specialize (Hwalk (EvHTTP fn (base ++ path) ro)).
      cbn [walk In] in Hwalk.
      repeat (destruct Hwalk as [<-|Hwalk]; [cbn; repeat split; lia|]).
      destruct Hwalk.
    + intros [= <- <-]. exists [EvHTTP fn (base ++ path) ro].
      split; [exact Htr|]. cbn. repeat split; lia.
Qed.

(** X7. A jar that exists before a call of [doRequest] is at the same
    address and on the same file after it; the heap grows by one jar at
    most, opened on the cookie file. *)
Theorem doRequest_keeps_jars client method path params opts (s s' : State W) o :
  doRequest X Get2FACode client method path params opts s = (o, s') ->
  (forall jar file, jars s !! jar = Some file -> jars s' !! jar = Some file)
  /\ (length (jars s) <= length (jars s') <= S (length (jars s)))%nat
  /\ (forall jar file,
         jars s' !! jar = Some file -> jars s !! jar = None ->
         jar = length (jars s) /\ file = cookiesFile X).
Proof.
  intros Hrun.
  assert (jars s' = jars s \/ jars s' = (jars s ++ [cookiesFile X])%list) as [->| ->].
  { revert Hrun. rewrite doRequest_stages.
    destruct (dispatch X client method path params opts s) as [o1 s1] eqn:Hd.
    destruct (dispatch_cases _ _ _ _ _ _ _ _ Hd)
      as [[(p & ->) ->]|(fn & base & ro & r & _ & Hbase & -> & Hjars & _)].
    - intros [= _ <-]. auto.
    - destruct r as [resp|err]; [|intros [= _ <-]; auto].
      intros Hs.
      destruct (settle_walk _ _ _ _ _ _ _ _ Hbase Hs) as (h & _ & _ & _ & _ & Hj).
      rewrite Hjars in Hj. exact Hj. }
  - repeat split; auto; try lia; congruence.
  - split; [|split].
    + intros jar file Hj. rewrite lookup_app_l; [exact Hj|].
      eapply lookup_lt_Some. eassumption.
    + rewrite length_app. cbn. lia.
    + intros jar file Hnew Hold.
      apply lookup_ge_None in Hold.
      rewrite lookup_app_r in Hnew by assumption.
      destruct (jar - length (jars s))%nat as [|n] eqn:Hn; cbn in Hnew;
        [|destruct n; discriminate].
      injection Hnew as <-. split; [lia|reflexivity].
Qed.

End Walks.

(** ** Beyond the claims: the outcomes of a call *)

Section Outcomes.

Context {W URL : Type} (X : Externals W URL).
Variable Get2FACode : W -> result Z * W.

(** X8. A call of [doRequest] that returns a response has saved the
    client's jar as its last step, and that save succeeded: a caller that
    holds a response knows the cookies are on disk. *)
Theorem success_means_persisted client method path params opts (s s' : State W) resp :
  doRequest X Get2FACode client method path params opts s = (Val (inl resp), s') ->
  exists before w,
    trace s' = (before ++ [EvJarSave (client_CookieJar client)])%list
    /\ Jar_Save X (client_CookieJar client) w = (None, world s').
Proof.
  rewrite doRequest_stages.
  destruct (dispatch X client method path params opts s) as [[[resp0|err]|p] s1] eqn:Hd;
    try discriminate.
  destruct (dispatch_inv X _ _ _ _ _ _ _ _ Hd)
    as (fn & base & ro & raw0 & _ & Hbase & _ & _ & _ & _).
  destruct (decide (StatusCode resp0 = 401%Z)) as [H401|Hne].
  - rewrite settle_challenge by assumption. cbv zeta. rewrite Hbase.
    destruct (Response_JSON_Token X _) as [token|err]; [|discriminate].
    destruct (Get2FACode (world s1)) as [[code|err] w1]; cbn [fst snd];
      [|discriminate].
    destruct (Jar_load X _ _ w1) as [[err|] w2]; cbn [fst snd]; [discriminate|].
    destruct (http_RoundTrip X POST _ _ w2) as [[raw|err] w3]; cbn [fst snd];
      [|discriminate].
    destruct (Ok (buildResponse raw)); [|discriminate].
    destruct (Jar_Save X (length (jars s1)) w3) as [[err|] w4]; cbn [fst snd];
      [discriminate|].
    destruct (Jar_Save X (client_CookieJar client) w4) as [[err|] w5] eqn:Hsave;
      cbn [fst snd]; [discriminate|].
    intros [= <- <-]. cbn [trace world].
    eexists (trace s1 ++ [_; _; _; _])%list, w4.
    rewrite <- !app_assoc. cbn [app]. split; [reflexivity|exact Hsave].
  - rewrite settle_pass by assumption. cbv zeta.
    destruct (Ok resp0); [|discriminate].
    destruct (Jar_Save X (client_CookieJar client) (world s1)) as [[err|] w] eqn:Hsave;
      cbn [fst snd]; [discriminate|].
    intros [= <- <-]. cbn [trace world]. eauto.
Qed.

(** X9. A challenge whose body does not decode ends the call at once with
    the error of the decoder: the user is not asked for a code, no jar is
    opened or saved and nothing more is sent. *)
Theorem malformed_challenge client method path params opts (s s1 : State W) resp err :
  dispatch X client method path params opts s = (Val (inl resp), s1) ->
  StatusCode resp = 401%Z ->
  Response_JSON_Token X resp = inr err ->
  doRequest X Get2FACode client method path params opts s = (Val (inr err), s1).
Proof.
  intros Hd H401 Htok.
  rewrite doRequest_stages, Hd, settle_challenge, Htok by assumption.
  reflexivity.
Qed.

(** X10. An exchange that is not answered with 2xx ends the call with the
    error made from that answer, also when the answer is itself a 401: the
    user is asked once, the exchange is sent once, and no jar is saved. The
    generic error names [POST] and [/do2fa], whatever the method and the
    path of the caller's request were. *)
Theorem rejected_exchange client method path params opts (s0 s : State W)
    resp token code base raw w :
  dispatch X client method path params opts s0 = (Val (inl resp), s) ->
  exchanged X Get2FACode client resp s token code base raw w ->
  ~ (200 <= rawStatusCode raw < 300)%Z ->
  exists err,
    doRequest X Get2FACode client method path params opts s0
    = (Val (inr err),
       mkState w (jars s ++ [cookiesFile X])
               (trace s ++ [EvGet2FACode; EvJarNew (cookiesFile X);
                            EvHTTP POST (base ++ "/1.1/do2fa")
                              (exchangeOptions token code (length (jars s)))]))
    /\ (HasPrefix (TrimSpace (Header_Get (rawHeader raw) "Content-Type"))
                  "application/json" = false ->
        err = ErrorString ("HTTP Error: " ++ fmt_d (rawStatusCode raw)
                             ++ ", POST /do2fa")).
Proof.
  intros Hd (H401 & Htok & Hbase & w1 & w2 & Hask & Hload & Hsent) Hrange.
  assert (Ok (buildResponse raw) = false) as Hok.
  { unfold buildResponse. cbn [Ok]. lia. }
  rewrite doRequest_stages, Hd, settle_challenge by assumption.
  rewrite Htok, Hask. cbv zeta. cbn [fst snd].
  rewrite Hload, Hbase. cbn [fst snd].
  rewrite Hsent. cbn [fst snd]. rewrite Hok.
  eexists. split; [reflexivity|].
  intros Hplain. unfold errorOf. cbn [Header StatusCode buildResponse].
  rewrite Hplain. reflexivity.
Qed.

(** X11. A transport error of the exchange is returned as it is. The jar
    opened for the exchange stays in the heap, but neither it nor the
    client's jar is saved. *)
Theorem failed_exchange client method path params opts (s0 s : State W)
    resp token code base err w1 w2 w :
  dispatch X client method path params opts s0 = (Val (inl resp), s) ->
  StatusCode resp = 401%Z ->
  Response_JSON_Token X resp = inl token ->
  Get2FACode (world s) = (inl code, w1) ->
  Jar_load X (length (jars s)) (cookiesFile X) w1 = (None, w2) ->
  GetBaseURL X client = Val base ->
  http_RoundTrip X POST (base ++ "/1.1/do2fa")
    (exchangeOptions token code (length (jars s))) w2 = (inr err, w) ->
  doRequest X Get2FACode client method path params opts s0
  = (Val (inr err),
     mkState w (jars s ++ [cookiesFile X])
             (trace s ++ [EvGet2FACode; EvJarNew (cookiesFile X);
                          EvHTTP POST (base ++ "/1.1/do2fa")
                            (exchangeOptions token code (length (jars s)))])).
Proof.
  intros Hd H401 Htok Hask Hload Hbase Hsent.
  rewrite doRequest_stages, Hd, settle_challenge by assumption.
  rewrite Htok, Hask. cbv zeta. cbn [fst snd].
  rewrite Hload, Hbase. cbn [fst snd].
  rewrite Hsent. reflexivity.
Qed.

(** X12. The user is asked for a code exactly when the caller's request
    is answered with 401 and the body of the answer decodes; then they are
    asked once. An answer with any other status, 2xx or not, never leads
    to the prompt, to a second request or to a new jar. *)
Theorem prompt_exactly_on_challenge client method path params opts
    (s s1 : State W) resp :
  dispatch X client method path params opts s = (Val (inl resp), s1) ->
  exists after,
    trace (snd (doRequest X Get2FACode client method path params opts s))
    = (trace s1 ++ after)%list
    /\ prompts after
       = (if (StatusCode resp =? 401)%Z
          then match Response_JSON_Token X resp with
               | inl _ => 1%nat
               | inr _ => 0%nat
               end
          else 0%nat)
    /\ (StatusCode resp <> 401%Z ->
        http_events after = [] /\ opened after = []
        /\ (after = [] \/ after = [EvJarSave (client_CookieJar client)])).
Proof.
  intros Hd.
  destruct (dispatch_inv X _ _ _ _ _ _ _ _ Hd)
    as (fn & base & ro & raw0 & _ & Hbase & _ & _ & _ & _).
  rewrite doRequest_stages, Hd.
  destruct (decide (StatusCode resp = 401%Z)) as [H401|Hne].
  - rewrite settle_challenge by assumption. cbv zeta. rewrite Hbase, H401.
    change (401 =? 401)%Z with true. cbv iota.
    destruct (Response_JSON_Token X resp) as [token|err] eqn:Htok.
    2:{ exists []. rewrite app_nil_r. split; [reflexivity|].
        split; [reflexivity|intros; contradiction]. }
    destruct (Get2FACode (world s1)) as [[code|err] w1]; cbn [fst snd].
    2:{ eexists. split; [reflexivity|]. split; [reflexivity|intros; contradiction]. }
    destruct (Jar_load X _ _ w1) as [[err|] w2]; cbn [fst snd].
    { eexists. split; [reflexivity|]. split; [reflexivity|intros; contradiction]. }
    destruct (http_RoundTrip X POST _ _ w2) as [[raw|err] w3]; cbn [fst snd].
    2:{ eexists. split; [reflexivity|]. split; [reflexivity|intros; contradiction]. }
    destruct (Ok (buildResponse raw)).
    2:{ eexists. split; [reflexivity|]. split; [reflexivity|intros; contradiction]. }
    destruct (Jar_Save X _ w3) as [[err|] w4]; cbn [fst snd trace];
      rewrite <- app_assoc; eexists;
      (split; [reflexivity|]; split; [reflexivity|intros; contradiction]).
  - rewrite settle_pass by assumption.
    destruct (Z.eqb_spec (StatusCode resp) 401); [contradiction|].
    destruct (Ok resp); cbn [snd trace].
    + eexists. split; [reflexivity|]. split; [reflexivity|]. intros _.
      repeat split; auto.
    + exists []. rewrite app_nil_r. split; [reflexivity|]. split; [reflexivity|].
      intros _. repeat split; auto.
Qed.

End Outcomes.

(** ** Beyond the claims: the cookie file, the constructors, the wrappers *)

Section CookieDirectory.

Import filepath.

#[local] Arguments String.append !_ _ / : simpl nomatch.

Lemma append_assoc (a b c : string) : (a ++ b) ++ c = a ++ (b ++ c).
Proof. induction a as [|x a IH]; cbn; [reflexivity|rewrite IH; reflexivity]. Qed.

Lemma joinSep_snoc es k :
  es <> [] -> joinSep (es ++ [k]) = joinSep es ++ String "/" k.
Proof.
  induction es as [|e [|e' rest] IH]; intros Hne; [contradiction|reflexivity|].
  change (joinSep ((e :: e' :: rest) ++ [k]))
    with (e ++ String "/" (joinSep ((e' :: rest) ++ [k]))).
  rewrite IH by discriminate.
  change (joinSep (e :: e' :: rest)) with (e ++ String "/" (joinSep (e' :: rest))).
  rewrite append_assoc. reflexivity.
Qed.

(** One more plain element in the buffer is one more element at the end
    of the path. *)
Lemma render_push rooted out l k :
  tidy rooted out -> plain l = true ->
  render rooted (fst out, k :: l :: snd out)
  = render rooted (fst out, l :: snd out) ++ String "/" k.
Proof.
  intros Hout Hl.
  destruct (rendered_head rooted out l Hout Hl) as (e & es & Hrend & He & Hene).
  destruct (joinSep_head e es He Hene) as (c & rest & Hjoin & Hc).
  rewrite !render_rendered. cbv zeta.
  assert (rendered (fst out, k :: l :: snd out)
          = (rendered (fst out, l :: snd out) ++ [k])%list) as ->.
  { unfold rendered. cbn [fst snd rev]. rewrite !app_assoc. reflexivity. }
  rewrite joinSep_snoc by (rewrite Hrend; discriminate).
  rewrite Hrend, Hjoin.
  destruct rooted; reflexivity.
Qed.

(** Cleaning a path that ends in a plain element, with one or with two of
    them, in terms of the buffer left by what comes before. *)
Lemma Clean_ends_plain d l :
  d <> "" -> plain l = true ->
  exists rooted out,
    tidy rooted out
    /\ Clean (d ++ String "/" l) = render rooted (fst out, l :: snd out)
    /\ forall k, plain k = true ->
                 Clean (d ++ String "/" (l ++ String "/" k))
                 = render rooted (fst out, k :: l :: snd out).
Proof.
  intros Hd Hl.
  destruct d as [|c0 d0]; [contradiction|].
  exists (isSep c0), (fold_left (cleanStep (isSep c0)) (elements (String c0 d0)) (0%nat, [])).
  pose proof (plain_noSep _ Hl) as Hl'.
  split; [|split].
  - apply fold_tidy; [apply elements_all_noSep|].
    split; [constructor|reflexivity].
  - unfold Clean.
    replace (String.eqb (String c0 d0 ++ String "/" l) "") with false by reflexivity.
    change (isRooted (String c0 d0 ++ String "/" l)) with (isSep c0).
    rewrite elements_app_sep, fold_left_app, elements_noSep by assumption.
    cbn [fold_left]. rewrite cleanStep_plain by assumption. reflexivity.
  - intros k Hk. pose proof (plain_noSep _ Hk) as Hk'.
    unfold Clean.
    replace (String.eqb (String c0 d0 ++ String "/" (l ++ String "/" k)) "")
      with false by reflexivity.
    change (isRooted (String c0 d0 ++ String "/" (l ++ String "/" k)))
      with (isSep c0).
    rewrite !elements_app_sep, !fold_left_app, !elements_noSep by assumption.
    cbn [fold_left]. rewrite !cleanStep_plain by assumption. reflexivity.
Qed.

(** A plain element joined to a directory and a plain name: the result is
    the joined directory, a separator, and the name. *)
Lemma Join_directory dir l k :
  plain l = true -> plain k = true ->
  Join [dir; l] <> ""
  /\ Join [Join [dir; l]; k] = Join [dir; l] ++ String "/" k.
Proof.
  intros Hl Hk.
  assert (l <> "") as Hlne by (intros ->; discriminate).
  destruct (String.eqb_spec dir "") as [->|Hne].
  - (* no directory: the element is the path *)
    destruct l as [|c l']; [contradiction|].
    assert (isSep c = false) as Hc.
    { unfold plain in Hl. cbn [noSep] in Hl.
      destruct (isSep c); [|reflexivity]. rewrite !andb_false_r in Hl. discriminate. }
    pose proof (plain_noSep _ Hl) as Hl'. pose proof (plain_noSep _ Hk) as Hk'.
    assert (Join [""; String c l'] = String c l') as Hj.
    { change (Join [""; String c l']) with (Clean (String c l')).
      unfold Clean.
      replace (String.eqb (String c l') "") with false by reflexivity.
      change (isRooted (String c l')) with (isSep c). rewrite Hc.
      rewrite elements_noSep by assumption.
      cbn [fold_left]. rewrite cleanStep_plain by assumption. reflexivity. }
    rewrite Hj. split; [discriminate|].
    change (Join [String c l'; k]) with (Clean (String c l' ++ String "/" k)).
    unfold Clean.
    replace (String.eqb (String c l' ++ String "/" k) "") with false by reflexivity.
    change (isRooted (String c l' ++ String "/" k)) with (isSep c). rewrite Hc.
    rewrite elements_app_sep, fold_left_app, !elements_noSep by assumption.
    cbn [fold_left]. rewrite !cleanStep_plain by assumption.
    reflexivity.
  - destruct (Clean_ends_plain dir l Hne Hl) as (rooted & out & Hout & Hq & Hboth).
    assert (Join [dir; l] = Clean (dir ++ String "/" l)) as Hin.
    { cbn [Join]. apply String.eqb_neq in Hne. rewrite Hne. reflexivity. }
    rewrite Hin. split; [apply Clean_nonempty|].
    cbn [Join].
    pose proof (Clean_nonempty (dir ++ String "/" l)) as Hqne.
    apply String.eqb_neq in Hqne. rewrite Hqne.
    change (joinSep [Clean (dir ++ String "/" l); k])
      with (Clean (dir ++ String "/" l) ++ String "/" k).
    rewrite Clean_append by assumption.
    rewrite (Hboth k Hk), Hq. apply render_push; assumption.
Qed.

End CookieDirectory.

Section Construction.

Context {W URL : Type} (X : Externals W URL).
Variable Get2FACode : W -> result Z * W.

(** X13. Whatever the configuration directory is, the file [newCookieJar]
    opens lies directly in the directory it has just created, and it is the
    file the challenge handler opens for the exchange. *)
Theorem cookie_file_in_created_directory :
  let dir := filepath.Join [utils_ConfigDir X; "leancloud"] in
  dir <> ""
  /\ clientCookiesFile X = dir ++ "/cookies"
  /\ cookiesFile X = dir ++ "/cookies".
Proof.
  cbv zeta.
  destruct (Join_directory (utils_ConfigDir X) "leancloud" "cookies" eq_refl eq_refl)
    as [Hne Hfile].
  split; [exact Hne|]. split; [exact Hfile|].
  unfold cookiesFile. rewrite <- Join_nested. exact Hfile.
Qed.



(** X15. Two clients constructed one after the other hold two different
    jars, and both jars were opened on the same file: what one saves, the
    other overwrites. *)
Theorem two_clients_one_file region appID (s s1 s2 : State W) first second :
  NewClientByRegion X region s = (Val first, s1) ->
  NewClientByApp X appID s1 = (Val second, s2) ->
  client_CookieJar first <> client_CookieJar second
  /\ jars s2 !! client_CookieJar first = Some (cookiesFile X)
  /\ jars s2 !! client_CookieJar second = Some (cookiesFile X).
Proof.
  intros H1 H2.
  pose proof (NewClientByRegion_client X _ _ _ _ H1) as [-> Hf1].
  pose proof (NewClientByApp_client X _ _ _ _ H2) as [-> Hf2].
  cbn [client_CookieJar] in *.
  assert (jars s1 = (jars s ++ [clientCookiesFile X])%list
          /\ jars s2 = (jars s1 ++ [clientCookiesFile X])%list) as [Hj1 Hj2].
  { revert H1 H2. unfold NewClientByRegion, NewClientByApp.
    rewrite !bind_run, !newCookieJar_run. cbv zeta.
    destruct (Jar_load X (length (jars s)) _ _) as [[err|] w]; cbn [fst snd];
      [discriminate|].
    unfold ret at 1. intros [= <-]. cbn [jars world].
    destruct (Jar_load X _ _ _) as [[err|] w']; cbn [fst snd]; [discriminate|].
    unfold ret at 1. intros [= <-]. cbn [jars]. auto. }
  rewrite <- (clientCookiesFile_cookiesFile X).
  split; [rewrite Hj1, length_app; cbn; lia|].
  split; [|exact Hf2].
  rewrite Hj2, lookup_app_l by (rewrite Hj1, length_app; cbn; lia).
  exact Hf1.
Qed.

(** X16. The base URL of a client is never empty: it is the override, or
    one of the three origins of the table. *)
Theorem base_URL_is_override_or_origin client url :
  GetBaseURL X client = Val url ->
  url <> ""
  /\ (url = os_Getenv X "LEANCLOUD_DASHBOARD"
      \/ In url ["https://leancloud.cn"; "https://us.leancloud.cn";
                 "https://tab.leancloud.cn"]).
Proof.
  unfold GetBaseURL.
  destruct (String.eqb_spec (os_Getenv X "LEANCLOUD_DASHBOARD") "") as [Henv|Henv];
    cbn [negb].
  2:{ intros [= <-]. auto. }
  assert (forall region,
             match dashboardBaseUrls !! region with
             | Some u => Val u
             | None => Panic (PanicStr "invalid region")
             end = Val url ->
             url <> "" /\ (url = os_Getenv X "LEANCLOUD_DASHBOARD"
                           \/ In url ["https://leancloud.cn"; "https://us.leancloud.cn";
                                      "https://tab.leancloud.cn"])) as Htable.
  { intros region. rewrite dashboardBaseUrls_lookup.
    destruct region; intros [= <-]; (split; [discriminate|cbn; auto]). }
  destruct (negb (String.eqb (AppID client) "")).
  - destruct (apps_GetAppRegion X (AppID client)) as [region|err]; [|discriminate].
    apply Htable.
  - apply Htable.
Qed.

(** X17. A client made by [NewClientByApp], with the override unset: a
    non-empty application ID decides the base URL through the resolver
    alone; with the empty ID the resolver is not consulted and the base URL
    is the one of the zero region, or the panic [invalid region]. *)
Theorem NewClientByApp_base_URL appID (s s' : State W) client :
  os_Getenv X "LEANCLOUD_DASHBOARD" = "" ->
  NewClientByApp X appID s = (Val client, s') ->
  GetBaseURL X client
  = match (if decide (appID = "") then inl (regions_zero X)
           else apps_GetAppRegion X appID) with
    | inr err => Panic (PanicErr err)
    | inl region =>
        match dashboardBaseUrls !! region with
        | Some url => Val url
        | None => Panic (PanicStr "invalid region")
        end
    end.
Proof.
  intros Henv Hnew.
  pose proof (NewClientByApp_client X _ _ _ _ Hnew) as [-> _].
  destruct (decide (appID = "")) as [->|Hne].
  - rewrite GetBaseURL_region by (assumption || reflexivity). reflexivity.
  - rewrite GetBaseURL_app by assumption. reflexivity.
Qed.

(** X18. With options of the caller's and a base URL, each of the five
    helpers sends its own verb to the base URL followed by the path, and
    never panics on the method: [get] and [delete] send the options
    untouched, [post], [patch] and [put] with the parameters as the JSON
    body when there are any. *)
Theorem helpers_send_their_verb client path params o (s : State W) base :
  GetBaseURL X client = Val base ->
  let body := match params with
              | Some p => with_JSON o (VMap p)
              | None => o
              end in
  let starts (r : Outcome (result Response) * State W) verb ro :=
    exists after,
      trace (snd r) = (trace s ++ EvHTTP verb (base ++ path) ro :: after)%list in
  starts (get X Get2FACode client path (Some o) s) GET o
  /\ starts (delete X Get2FACode client path (Some o) s) DELETE o
  /\ starts (post X Get2FACode client path params (Some o) s) POST body
  /\ starts (patch X Get2FACode client path params (Some o) s) PATCH body
  /\ starts (put X Get2FACode client path params (Some o) s) PUT body.
Proof.
  intros Hbase. cbv zeta.
  repeat split.
  - exact (doRequest_supplied_first X Get2FACode client "GET" path None o s GET base
             eq_refl Hbase).
  - exact (doRequest_supplied_first X Get2FACode client "DELETE" path None o s DELETE
             base eq_refl Hbase).
  - exact (doRequest_supplied_first X Get2FACode client "POST" path params o s POST
             base eq_refl Hbase).
  - exact (doRequest_supplied_first X Get2FACode client "PATCH" path params o s PATCH
             base eq_refl Hbase).
  - exact (doRequest_supplied_first X Get2FACode client "PUT" path params o s PUT
             base eq_refl Hbase).
Qed.

(** X19. An answer to the caller's request that is neither 2xx nor 401 and
    has no [Content-Type] header, or an empty one, is the generic error:
    the body is not looked at. When the header has several values, the
    first one decides. *)
Theorem untyped_error_is_generic client method path params opts (s s1 : State W) resp :
  dispatch X client method path params opts s = (Val (inl resp), s1) ->
  ~ (200 <= StatusCode resp < 300)%Z ->
  StatusCode resp <> 401%Z ->
  let generic := ErrorString ("HTTP Error: " ++ fmt_d (StatusCode resp) ++ ", "
                                ++ method ++ " " ++ path) in
  let final := doRequest X Get2FACode client method path params opts s in
  (Header resp !! "Content-Type" = None \/ Header resp !! "Content-Type" = Some []
   \/ (exists rest, Header resp !! "Content-Type" = Some ("" :: rest)) ->
   final = (Val (inr generic), s1))
  /\ (forall first rest,
         Header resp !! "Content-Type" = Some (first :: rest) ->
         final = (Val (inr (if HasPrefix (TrimSpace first) "application/json"
                            then NewErrorFromResponse X resp
                            else generic)), s1)).
Proof.
  intros Hd Hrange Hne. cbv zeta.
  destruct (dispatch_inv X _ _ _ _ _ _ _ _ Hd)
    as (fn & base & ro & raw & _ & _ & _ & -> & _ & _).
  assert (Ok (buildResponse raw) = false) as Hok.
  { destruct (Ok (buildResponse raw)) eqn:Hok; [|reflexivity].
    apply Ok_buildResponse in Hok. contradiction. }
  rewrite doRequest_stages, Hd, settle_pass, Hok by assumption.
  unfold errorOf, Header_Get. split.
  - intros [-> | [-> | (rest & ->)]]; reflexivity.
  - intros first rest ->.
    destruct (HasPrefix (TrimSpace first) "application/json"); reflexivity.
Qed.

End Construction.

(** ** Beyond the claims: the prompt *)

Section Prompt.

Context {W URL : Type} (X : Externals W URL).

Lemma numeral_unsignedPart s :
  numeral s = negb (String.eqb (unsignedPart s) "")
              && forallb isDigit (list_ascii_of_string (unsignedPart s)).
Proof.
  destruct s as [|c t]; [reflexivity|].
  destruct c as [[] [] [] [] [] [] [] []]; reflexivity.
Qed.

Lemma Atoi_unsignedPart s :
  Atoi s =
    match (if String.eqb (unsignedPart s) "" then None
           else digits 0 (unsignedPart s)) with
    | Some n =>
        let v := match s with
                 | String c _ => if Ascii.eqb c "-" then (- n)%Z else n
                 | EmptyString => n
                 end in
        if ((- 2 ^ 63 <=? v) && (v <=? 2 ^ 63 - 1))%Z then Some v else None
    | None => None
    end.
Proof.
  destruct s as [|c t]; [reflexivity|].
  destruct c as [[] [] [] [] [] [] [] []];
    try (destruct t; [reflexivity|]);
    cbn [unsignedPart Ascii.eqb Bool.eqb orb andb String.eqb Atoi];
    try reflexivity;
    match goal with
    | |- context [digits 0 ?u] => destruct (digits 0 u); reflexivity
    end.
Qed.

Lemma digits_all_digits s : forall acc n,
  digits acc s = Some n -> forallb isDigit (list_ascii_of_string s) = true.
Proof.
  induction s as [|c s IH]; intros acc n; cbn [digits list_ascii_of_string forallb];
    [reflexivity|].
  destruct (isDigit c); [|discriminate].
  intros H. apply IH in H. exact H.
Qed.

Lemma all_digits_digits s : forall acc,
  forallb isDigit (list_ascii_of_string s) = true -> exists n, digits acc s = Some n.
Proof.
  induction s as [|c s IH]; intros acc; cbn [digits list_ascii_of_string forallb];
    [eauto|].
  destruct (isDigit c); [|discriminate]. cbn [andb]. apply IH.
Qed.

(** [Atoi] reads exactly the numerals whose value fits [int]. *)
Lemma Atoi_numeral s n :
  Atoi s = Some n -> numeral s = true /\ (- 2 ^ 63 <= n <= 2 ^ 63 - 1)%Z.
Proof.
  rewrite Atoi_unsignedPart, numeral_unsignedPart.
  destruct (String.eqb (unsignedPart s) ""); [discriminate|].
  destruct (digits 0 (unsignedPart s)) as [m|] eqn:Hd; [|discriminate].
  apply digits_all_digits in Hd. rewrite Hd. cbv zeta.
  match goal with
  | |- context [if ?b then Some ?v else None] => destruct b eqn:Hb; [|discriminate]
  end.
  intros [= <-]. split; [reflexivity|lia].
Qed.

Lemma Atoi_not_numeral s : numeral s = false -> Atoi s = None.
Proof.
  rewrite Atoi_unsignedPart, numeral_unsignedPart.
  destruct (String.eqb (unsignedPart s) ""); [reflexivity|].
  cbn [negb andb]. intros Hd.
  destruct (digits 0 (unsignedPart s)) as [m|] eqn:Hm; [|reflexivity].
  apply digits_all_digits in Hm. congruence.
Qed.

(** X20. The initial value of [Get2FACode] asks once and leaves the world
    as the prompt left it. It returns a code only for an answer that is an
    optional sign followed by decimal digits and nothing else, no space and
    no line end, and the code fits a 64-bit [int]. Every other answer, also
    a number too large, gets the same validation error. *)
Theorem Get2FACode_default_reads_numerals (w : W) :
  let answer := fst (wizard_Ask X w) in
  let invalid := ErrorString "二次认证验证码应该为数字" in
  snd (Get2FACode_default X w) = snd (wizard_Ask X w)
  /\ (forall code,
         fst (Get2FACode_default X w) = inl code ->
         numeral answer = true /\ (- 2 ^ 63 <= code <= 2 ^ 63 - 1)%Z)
  /\ (numeral answer = false -> fst (Get2FACode_default X w) = inr invalid)
  /\ (forall err, fst (Get2FACode_default X w) = inr err -> err = invalid).
Proof.
  cbv zeta. unfold Get2FACode_default.
  destruct (wizard_Ask X w) as [answer w']. cbn [fst snd].
  destruct (Atoi answer) as [n|] eqn:Hn; cbn [fst snd].
  - split; [reflexivity|]. apply Atoi_numeral in Hn. destruct Hn as [Hnum Hrange].
    split; [intros code [= <-]; auto|].
    split; [congruence|discriminate].
  - split; [reflexivity|].
    split; [discriminate|].
    split; [reflexivity|]. intros err [= <-]. reflexivity.
Qed.

Lemma digits_bound s : forall acc n,
  (0 <= acc)%Z -> digits acc s = Some n ->
  (acc * 10 ^ Z.of_nat (String.length s) <= n
   < (acc + 1) * 10 ^ Z.of_nat (String.length s))%Z.
Proof.
  induction s as [|c s IH]; intros acc n Hacc; cbn [digits String.length].
  - intros [= <-]. cbn. lia.
  - unfold isDigit. destruct ((48 <=? byte c)%nat && (byte c <=? 57)%nat) eqn:Hc;
      [|discriminate].
    intros H. apply IH in H; [|lia].
    rewrite Nat2Z.inj_succ, Z.pow_succ_r by lia.
    apply andb_true_iff in Hc. destruct Hc as [Hlo Hhi].
    apply Nat.leb_le in Hlo, Hhi.
    assert (0 <= Z.of_nat (byte c - 48) <= 9)%Z by lia.
    assert (0 < 10 ^ Z.of_nat (String.length s))%Z by (apply Z.pow_pos_nonneg; lia).
    nia.
Qed.

(** X21. Conversely, every numeral of at most eighteen digits is read: its
    value fits, so the prompt returns a code, and the code is negative only
    for an answer that starts with the minus sign. *)
Theorem Get2FACode_default_accepts (w : W) :
  numeral (fst (wizard_Ask X w)) = true ->
  (String.length (unsignedPart (fst (wizard_Ask X w))) <= 18)%nat ->
  exists code,
    fst (Get2FACode_default X w) = inl code
    /\ (- 10 ^ 18 < code < 10 ^ 18)%Z
    /\ (code < 0 -> exists t, fst (wizard_Ask X w) = String "-" t)%Z.
Proof.
  unfold Get2FACode_default.
  destruct (wizard_Ask X w) as [answer w']. cbn [fst snd].
  rewrite numeral_unsignedPart, Atoi_unsignedPart.
  intros Hnum Hlen. apply andb_true_iff in Hnum. destruct Hnum as [Hne Hall].
  apply negb_true_iff in Hne. rewrite Hne.
  destruct (all_digits_digits _ 0%Z Hall) as (n & Hn). rewrite Hn. cbv zeta.
  pose proof (digits_bound _ _ _ (Z.le_refl 0) Hn) as Hb.
  assert (10 ^ Z.of_nat (String.length (unsignedPart answer)) <= 10 ^ 18)%Z as Hpow
    by (apply Z.pow_le_mono_r; lia).
  assert (0 <= n < 10 ^ 18)%Z as Hrange by lia.
  destruct answer as [|c t].
  - discriminate.
  - destruct (Ascii.eqb_spec c "-") as [->|Hc].
    + replace ((- 2 ^ 63 <=? - n)%Z && (- n <=? 2 ^ 63 - 1)%Z) with true by lia.
      cbn [fst]. exists (- n)%Z. split; [reflexivity|]. split; [lia|eauto].
    + replace ((- 2 ^ 63 <=? n)%Z && (n <=? 2 ^ 63 - 1)%Z) with true by lia.
      cbn [fst]. exists n. split; [reflexivity|]. split; [lia|lia].
Qed.

End Prompt.

(** ** The theorems at work on the concrete world *)

Section Runs.

Import Demo.

(** *** The library functions on small inputs *)

Example TrimSpace_header :
  TrimSpace "  application/json; charset=utf-8 " = "application/json; charset=utf-8".
Proof. reflexivity. Qed.

Example Atoi_code : Atoi "123456" = Some 123456%Z.
Proof. reflexivity. Qed.

Example Atoi_signed : Atoi "-42" = Some (-42)%Z /\ Atoi "+7" = Some 7%Z.
Proof. split; reflexivity. Qed.

Example Atoi_not_a_number :
  Atoi "12a456" = None /\ Atoi "" = None /\ Atoi "-" = None
  /\ Atoi "9223372036854775808" = None.
Proof. repeat split; reflexivity. Qed.

Example Clean_paths :
  filepath.Clean "a//b/./c/.." = "a/b" /\ filepath.Clean "/../a" = "/a"
  /\ filepath.Clean "../../a/.." = "../.." /\ filepath.Clean "" = ".".
Proof. repeat split; reflexivity. Qed.

Example cookie_files :
  clientCookiesFile X0 = "/home/dev/.config/leancloud/cookies"
  /\ cookiesFile X0 = "/home/dev/.config/leancloud/cookies".
Proof. split; reflexivity. Qed.

(** The default hook on an answer that is not a number. *)
Example Get2FACode_default_rejects :
  fst (Get2FACode_default X0 (mkWorld [] "12a456" false []))
  = inr (ErrorString "二次认证验证码应该为数字").
Proof. reflexivity. Qed.

(** A challenge answered with something that is not a number: the call
    ends with the validation error and the only network call is the
    caller's. *)
Example challenge_not_a_number :
  let final := doRequest X0 hook0 client "GET" appsPath None None
                 (start (mkWorld [inl challenge; inl welcome] "12a456" false [])) in
  fst final = Val (inr (ErrorString "二次认证验证码应该为数字"))
  /\ length (http_events (trace (snd final))) = 1%nat.
Proof. split; vm_compute; reflexivity. Qed.

(** *** The claims on the concrete world *)

(** C1 as stated does not hold. The dashboard answers [401] with the token
    [abc], the user types [123456], and the cookie file cannot be read when
    the handler opens it: the call returns the error of [cookiejar.New], and
    after the caller's request nothing is sent. *)
Lemma exchange_not_always_posted :
  dispatch X0 client "GET" appsPath None None challenged_unreadable
  = (Val (inl (buildResponse challenge)), dispatched challenged_unreadable)
  /\ StatusCode (buildResponse challenge) = 401%Z
  /\ Response_JSON_Token X0 (buildResponse challenge) = inl "abc"
  /\ fst (hook0 (world (dispatched challenged_unreadable))) = inl 123456%Z
  /\ doRequest X0 hook0 client "GET" appsPath None None challenged_unreadable
     = (Val (inr (LibError "cannot load cookies")),
        mkState (mkWorld [inl welcome] "123456" true [])
                ["/home/dev/.config/leancloud/cookies"]
                (trace (dispatched challenged_unreadable)
                   ++ [EvGet2FACode; EvJarNew "/home/dev/.config/leancloud/cookies"]))
  /\ ~ exchange_always_posted X0 hook0.
Proof.
  repeat (split; [vm_compute; reflexivity|]).
  intros H.
  destruct (H client "GET" appsPath None None challenged_unreadable
              (dispatched challenged_unreadable) (buildResponse challenge)
              "abc" 123456%Z (world (dispatched challenged_unreadable))
              eq_refl eq_refl eq_refl eq_refl)
    as (base & after & ro & _ & Htrace & Hevents & _).
  vm_compute in Htrace. injection Htrace as <-. discriminate Hevents.
Qed.

(** A challenge with the token [abc], answered [123456] at the prompt: one
    POST follows, with that token and that code. *)
Lemma challenge_posts_exchange_once_witness :
  dispatch X0 client "GET" appsPath None None challenged
  = (Val (inl (buildResponse challenge)), dispatched challenged)
  /\ StatusCode (buildResponse challenge) = 401%Z
  /\ Response_JSON_Token X0 (buildResponse challenge) = inl "abc"
  /\ exists after,
       trace (snd (doRequest X0 hook0 client "GET" appsPath None None challenged))
       = (trace (dispatched challenged) ++ after)%list
       /\ http_events after
          = [(POST, "https://leancloud.cn/1.1/do2fa",
              exchangeOptions "abc" 123456 1)].
Proof.
  repeat (split; [reflexivity|]).
  destruct (challenge_posts_exchange_once X0 hook0 client "GET" appsPath None None
              challenged (dispatched challenged) (buildResponse challenge) "abc"
              eq_refl eq_refl eq_refl)
    as [(base & after & Hbase & Htrace & Hevents) _].
  injection Hbase as <-.
  exists after. split; [exact Htrace|exact Hevents].
Defined.

(** C2 as stated does not hold. The exchange is answered with [200] and
    the fresh jar, jar [1], cannot be saved: the handler returns the error
    of the save, not the response of the exchange. *)
Lemma exchange_response_not_always_returned :
  exchanged X0 hook0 client (buildResponse challenge)
    (dispatched challenged_unwritable) "abc" 123456 "https://leancloud.cn"
    welcome (mkWorld [] "123456" false [1%nat])
  /\ Ok (buildResponse welcome) = true
  /\ fst (checkAndDo2FA X0 hook0 client (buildResponse challenge)
            (dispatched challenged_unwritable))
     = Val (inr (LibError "cannot save"))
  /\ saves (trace (snd (checkAndDo2FA X0 hook0 client (buildResponse challenge)
                          (dispatched challenged_unwritable))))
     = [1%nat]
  /\ ~ exchange_response_always_returned X0 hook0.
Proof.
  assert (exchanged X0 hook0 client (buildResponse challenge)
            (dispatched challenged_unwritable) "abc" 123456 "https://leancloud.cn"
            welcome (mkWorld [] "123456" false [1%nat])) as Hexchanged.
  { repeat (split; [reflexivity|]).
    eexists _, _. repeat split; reflexivity. }
  split; [exact Hexchanged|].
  repeat (split; [vm_compute; reflexivity|]).
  intros H.
  destruct (H client (buildResponse challenge) (dispatched challenged_unwritable)
              "abc" 123456%Z "https://leancloud.cn" welcome
              (mkWorld [] "123456" false [1%nat]) Hexchanged eq_refl)
    as (s' & Hreturned).
  vm_compute in Hreturned. discriminate Hreturned.
Qed.

(** In that run the handler gets as far as the exchange, which is answered
    with [200]. *)
Lemma exchanged_challenged :
  exchanged X0 hook0 client (buildResponse challenge) (dispatched challenged)
    "abc" 123456 "https://leancloud.cn" welcome (mkWorld [] "123456" false []).
Proof.
  repeat (split; [reflexivity|]).
  eexists _, _. repeat split; reflexivity.
Defined.

(** In that run the handler returns the response of the exchange and the
    only network call after the caller's is the exchange. *)
Lemma exchange_success_substitutes_witness :
  dispatch X0 client "GET" appsPath None None challenged
  = (Val (inl (buildResponse challenge)), dispatched challenged)
  /\ exchanged X0 hook0 client (buildResponse challenge) (dispatched challenged)
       "abc" 123456 "https://leancloud.cn" welcome (mkWorld [] "123456" false [])
  /\ Ok (buildResponse welcome) = true
  /\ fst (checkAndDo2FA X0 hook0 client (buildResponse challenge)
            (dispatched challenged))
     = Val (inl (buildResponse welcome))
  /\ exists rest,
       http_events (trace (snd (doRequest X0 hook0 client "GET" appsPath None None
                                  challenged)))
       = (http_events (trace (dispatched challenged))
            ++ [(POST, "https://leancloud.cn/1.1/do2fa",
                 exchangeOptions "abc" 123456 1)] ++ http_events rest)%list
       /\ http_events rest = [].
Proof.
  split; [reflexivity|]. split; [exact exchanged_challenged|].
  split; [reflexivity|].
  destruct (exchange_success_substitutes X0 hook0 client "GET" appsPath None None
              challenged (dispatched challenged) (buildResponse challenge)
              "abc" 123456 "https://leancloud.cn" welcome
              (mkWorld [] "123456" false [])
              eq_refl exchanged_challenged eq_refl)
    as (Hhandler & rest & Htrace & Hrest).
  split.
  - rewrite Hhandler. reflexivity.
  - exists rest. split; [|exact Hrest].
    rewrite Htrace, !http_events_app. reflexivity.
Defined.

(** C3 as stated does not hold. In the run in which the cookie file cannot
    be read when the handler opens it, the challenge is not replaced and
    the error returned is the one of [cookiejar.New], which is none of the
    four origins the claim lists. *)
Lemma challenge_error_not_always_listed :
  dispatch X0 client "GET" appsPath None None challenged_unreadable
  = (Val (inl (buildResponse challenge)), dispatched challenged_unreadable)
  /\ StatusCode (buildResponse challenge) = 401%Z
  /\ fst (doRequest X0 hook0 client "GET" appsPath None None challenged_unreadable)
     = Val (inr (LibError "cannot load cookies"))
  /\ produced X0 hook0 client (buildResponse challenge)
       (dispatched challenged_unreadable) StoreOpening
       (LibError "cannot load cookies")
  /\ ~ challenge_resolved_or_listed_error X0 hook0.
Proof.
  repeat (split; [vm_compute; reflexivity|]).
  split.
  { exists "abc", 123456%Z. eexists _, _. repeat split; reflexivity. }
  intros H.
  destruct (H client "GET" appsPath None None challenged_unreadable
              (dispatched challenged_unreadable) (buildResponse challenge)
              eq_refl eq_refl)
    as [(token & code & base & raw & w & s' & _ & Hrun)
       |(origin & err & s' & Hin & Hprod & _)].
  { apply (f_equal fst) in Hrun. vm_compute in Hrun. discriminate Hrun. }
  cbn [In listed] in Hin.
  destruct Hin as [<-|[<-|[<-|[<-|[]]]]]; cbn [produced] in Hprod.
  - vm_compute in Hprod. discriminate Hprod.
  - destruct Hprod as (token & w & _ & Hask).
    apply (f_equal fst) in Hask. vm_compute in Hask. discriminate Hask.
  - destruct Hprod as (token & code & base & w1 & w2 & w & _ & _ & Hask & Hload & _).
    apply (f_equal snd) in Hask. cbn [snd] in Hask. subst w1.
    apply (f_equal fst) in Hload. vm_compute in Hload. discriminate Hload.
  - destruct Hprod
      as (token & code & base & raw & w
          & (_ & _ & _ & w1 & w2 & Hask & Hload & _) & _).
    apply (f_equal snd) in Hask. cbn [snd] in Hask. subst w1.
    apply (f_equal fst) in Hload. vm_compute in Hload. discriminate Hload.
Qed.

(** A challenge whose exchange cookie store cannot be opened: the call ends
    with an error, and a step of the handler produced it. A challenge that
    is resolved: the caller receives the [200] of the exchange, not the
    [401]. *)
Lemma never_a_bare_401_witness :
  (dispatch X0 client "GET" appsPath None None challenged_unreadable
   = (Val (inl (buildResponse challenge)), dispatched challenged_unreadable)
   /\ StatusCode (buildResponse challenge) = 401%Z
   /\ exists origin err,
        produced X0 hook0 client (buildResponse challenge)
          (dispatched challenged_unreadable) origin err
        /\ fst (doRequest X0 hook0 client "GET" appsPath None None
                  challenged_unreadable)
           = Val (inr err))
  /\ (doRequest X0 hook0 client "GET" appsPath None None challenged
      = (Val (inl (buildResponse welcome)),
         snd (doRequest X0 hook0 client "GET" appsPath None None challenged))
      /\ StatusCode (buildResponse welcome) <> 401%Z).
Proof.
  split.
  - split; [reflexivity|]. split; [reflexivity|].
    destruct (proj2 (never_a_bare_401 X0 hook0 client "GET" appsPath None None
                       challenged_unreadable)
                (buildResponse challenge) (dispatched challenged_unreadable)
                eq_refl eq_refl)
      as [(token & code & base & raw & w & s' & _ & _ & Hrun)
         |(origin & err & s' & Hprod & Hrun)].
    + apply (f_equal fst) in Hrun. vm_compute in Hrun. discriminate Hrun.
    + exists origin, err. split; [exact Hprod|]. rewrite Hrun. reflexivity.
  - assert (doRequest X0 hook0 client "GET" appsPath None None challenged
            = (Val (inl (buildResponse welcome)),
               snd (doRequest X0 hook0 client "GET" appsPath None None challenged)))
      as Hrun by (vm_compute; reflexivity).
    split; [exact Hrun|].
    exact (proj1 (never_a_bare_401 X0 hook0 client "GET" appsPath None None challenged)
             (buildResponse welcome)
             (snd (doRequest X0 hook0 client "GET" appsPath None None challenged))
             Hrun).
Defined.


(** C5 as stated does not hold. A [PUT] is challenged, and the exchange is
    answered with [403] and a page of HTML, a response that is neither 2xx
    nor 401: the generic error names [POST] and [/do2fa], not the method
    and the path of the request. *)
Lemma generic_error_not_always_of_request :
  dispatch X0 client "PUT" appsPath None None challenged_refused
  = (Val (inl (buildResponse challenge)),
     snd (dispatch X0 client "PUT" appsPath None None challenged_refused))
  /\ exchanged X0 hook0 client (buildResponse challenge)
       (snd (dispatch X0 client "PUT" appsPath None None challenged_refused))
       "abc" 123456 "https://leancloud.cn" forbidden
       (mkWorld [] "123456" false [])
  /\ StatusCode (buildResponse forbidden) = 403%Z
  /\ fst (doRequest X0 hook0 client "PUT" appsPath None None challenged_refused)
     = Val (inr (ErrorString "HTTP Error: 403, POST /do2fa"))
  /\ ~ every_response_classified_by_request X0 hook0.
Proof.
  assert (exchanged X0 hook0 client (buildResponse challenge)
            (snd (dispatch X0 client "PUT" appsPath None None challenged_refused))
            "abc" 123456 "https://leancloud.cn" forbidden
            (mkWorld [] "123456" false [])) as Hex.
  { repeat (split; [reflexivity|]).
    eexists _, _. repeat split; reflexivity. }
  split; [reflexivity|]. split; [exact Hex|]. split; [reflexivity|].
  split; [vm_compute; reflexivity|].
  intros H.
  destruct (H client "PUT" appsPath None None challenged_refused
              (snd (dispatch X0 client "PUT" appsPath None None challenged_refused))
              (buildResponse challenge) (buildResponse forbidden) eq_refl
              (or_intror (ex_intro _ "abc" (ex_intro _ 123456%Z
                 (ex_intro _ "https://leancloud.cn" (ex_intro _ forbidden
                    (ex_intro _ (mkWorld [] "123456" false [])
                       (conj Hex eq_refl)))))))
              ltac:(intros [_ Hlt]; vm_compute in Hlt; discriminate Hlt)
              ltac:(discriminate))
    as (err & s' & Hrun & ->).
  apply (f_equal fst) in Hrun. vm_compute in Hrun. discriminate Hrun.
Qed.

(** A [400] with a JSON body, as the answer to the caller's request: the
    structured error with code [1] and message [bad request]. A [403] with
    a page of HTML, as the answer to the exchange that follows a challenged
    [PUT]: the generic error of the handler. *)
Lemma error_classification_witness :
  (dispatch X0 client "GET" appsPath None None rejected
   = (Val (inl (buildResponse badRequest)), dispatched rejected)
   /\ doRequest X0 hook0 client "GET" appsPath None None rejected
      = (Val (inr (APIError 1 "bad request")), dispatched rejected))
  /\ (dispatch X0 client "PUT" appsPath None None challenged_refused
      = (Val (inl (buildResponse challenge)),
         snd (dispatch X0 client "PUT" appsPath None None challenged_refused))
      /\ fst (doRequest X0 hook0 client "PUT" appsPath None None challenged_refused)
         = Val (inr (ErrorString "HTTP Error: 403, POST /do2fa"))).
Proof.
  split.
  - split; [reflexivity|].
    destruct (proj1 (error_classification X0 hook0 client "GET" appsPath None None
                       rejected (dispatched rejected) (buildResponse badRequest)
                       eq_refl)
                ltac:(intros [_ Hlt]; vm_compute in Hlt; discriminate Hlt)
                ltac:(discriminate))
      as (err & Hrun & Hclass).
    change (HasPrefix (TrimSpace (Header_Get (Header (buildResponse badRequest))
                                    "Content-Type")) "application/json")
      with true in Hclass.
    destruct Hclass as [_ Hcode].
    rewrite (Hcode 1%Z "bad request" eq_refl) in Hrun. exact Hrun.
  - split; [reflexivity|].
    assert (exchanged X0 hook0 client (buildResponse challenge)
              (snd (dispatch X0 client "PUT" appsPath None None challenged_refused))
              "abc" 123456 "https://leancloud.cn" forbidden
              (mkWorld [] "123456" false [])) as Hex.
    { repeat (split; [reflexivity|]).
      eexists _, _. repeat split; reflexivity. }
    destruct (proj2 (error_classification X0 hook0 client "PUT" appsPath None None
                       challenged_refused
                       (snd (dispatch X0 client "PUT" appsPath None None
                               challenged_refused))
                       (buildResponse challenge) eq_refl)
                "abc" 123456%Z "https://leancloud.cn" forbidden
                (mkWorld [] "123456" false []) Hex
                ltac:(intros [_ Hlt]; vm_compute in Hlt; discriminate Hlt))
      as (err & s' & Hrun & Hclass).
    change (HasPrefix (TrimSpace (Header_Get (Header (buildResponse forbidden))
                                    "Content-Type")) "application/json")
      with false in Hclass.
    rewrite Hrun, Hclass. reflexivity.
Defined.

(** A [502] with an HTML body: the generic error. *)
Lemma error_classification_generic :
  doRequest X0 hook0 client "GET" appsPath None None broken
  = (Val (inr (ErrorString "HTTP Error: 502, GET /1.1/clients/self/apps")),
     dispatched broken).
Proof. reflexivity. Qed.

(** The override wins; an unknown application and a region outside the table
    are panics; a resolved application and a region of the table give their URL. *)
Lemma GetBaseURL_priority_witness :
  GetBaseURL (externals "http://localhost:3000") (mkClient 0 (OtherRegion 9) "no-such-app")
  = Val "http://localhost:3000"
  /\ GetBaseURL X0 (mkClient 0 CN "no-such-app") = Panic (PanicErr (LibError "app not found"))
  /\ GetBaseURL X0 (mkClient 0 CN "app-us") = Val "https://us.leancloud.cn"
  /\ GetBaseURL X0 (mkClient 0 CN "app-eu") = Panic (PanicStr "invalid region")
  /\ GetBaseURL X0 (mkClient 0 TAB "") = Val "https://tab.leancloud.cn"
  /\ GetBaseURL X0 (mkClient 0 (OtherRegion 0) "") = Panic (PanicStr "invalid region").
Proof.
  split.
  { refine (proj1 (GetBaseURL_priority (externals "http://localhost:3000")
                     (mkClient 0 (OtherRegion 9) "no-such-app")) _).
    discriminate. }
  split.
  { refine (proj1 (proj2 (GetBaseURL_priority X0 (mkClient 0 CN "no-such-app")))
              eq_refl _ (LibError "app not found") eq_refl).
    discriminate. }
  split.
  { refine (proj2 (proj2 (GetBaseURL_priority X0 (mkClient 0 CN "app-us")))
              eq_refl US _).
    left. split; [discriminate|reflexivity]. }
  split.
  { refine (proj2 (proj2 (GetBaseURL_priority X0 (mkClient 0 CN "app-eu")))
              eq_refl (OtherRegion 7) _).
    left. split; [discriminate|reflexivity]. }
  split.
  { refine (proj2 (proj2 (GetBaseURL_priority X0 (mkClient 0 TAB "")))
              eq_refl TAB _).
    right. split; reflexivity. }
  refine (proj2 (proj2 (GetBaseURL_priority X0 (mkClient 0 (OtherRegion 0) "")))
            eq_refl (OtherRegion 0) _).
  right. split; reflexivity.
Defined.

(** A client constructed for [US]. *)
Lemma GetBaseURL_of_table_region_witness :
  os_Getenv X0 "LEANCLOUD_DASHBOARD" = ""
  /\ dashboardBaseUrls !! US = Some "https://us.leancloud.cn"
  /\ NewClientByRegion X0 US (mkState (mkWorld [] "" false []) [] [])
     = (Val (mkClient 0 US ""),
        snd (NewClientByRegion X0 US (mkState (mkWorld [] "" false []) [] [])))
  /\ GetBaseURL X0 (mkClient 0 US "") = Val "https://us.leancloud.cn".
Proof.
  repeat (split; [reflexivity|]).
  exact (proj1 (GetBaseURL_of_table_region X0 US "https://us.leancloud.cn"
                  (mkState (mkWorld [] "" false []) [] []) _ (mkClient 0 US "")
                  eq_refl eq_refl eq_refl)).
Defined.

(** The default options of the demo client: the first [XSRF-TOKEN] cookie of
    the jar is the header. *)
Lemma default_options_witness :
  verbOf "GET" = Some GET
  /\ GetBaseURL X0 client = Val "https://leancloud.cn"
  /\ url_Parse X0 "https://leancloud.cn" = inl "https://leancloud.cn"
  /\ options X0 client accepted
     = (Val (inl (mkRequestOptions (Some {[ "X-XSRF-TOKEN" := "x1" ]}) VNil
                    (Some 0%nat) true "LeanCloud-CLI/0.3.0")), accepted).
Proof.
  repeat (split; [reflexivity|]).
  exact (proj1 (default_options X0 hook0 client "GET" appsPath None accepted GET
                  "https://leancloud.cn" "https://leancloud.cn"
                  eq_refl eq_refl eq_refl)).
Defined.


(** The exchange request of that run. *)
Lemma exchange_request_is_bare_witness :
  exists added,
    trace (snd (checkAndDo2FA X0 hook0 client (buildResponse challenge)
                  (dispatched challenged)))
    = (trace (dispatched challenged) ++ added)%list
    /\ http_events added
       = [(POST, "https://leancloud.cn/1.1/do2fa",
           mkRequestOptions None
             (VMap {[ "token" := VString "abc"; "code" := VInt 123456 ]})
             (Some 1%nat) false "")].
Proof.
  destruct (proj1 (exchange_request_is_bare X0 hook0 client (buildResponse challenge)
                     (dispatched challenged)))
    as (added & Htrace & _ & Hposted).
  exists added. split; [exact Htrace|].
  exact (Hposted _ _ _ _ _ exchanged_challenged).
Defined.

End Runs.

(** ** The further properties on the concrete world *)

Section MoreRuns.

Import Demo.


(** The method in lower case is not one of the five. *)
Lemma unknown_method_panics_witness :
  ~ In "get" methods
  /\ doRequest X0 hook0 client "get" appsPath None (Some custom) accepted
     = (Panic (PanicStr "invalid method: get"), accepted).
Proof.
  assert (~ In "get" methods) as Hm.
  { cbn. intros H. repeat (destruct H as [H|H]; [discriminate H|]). exact H. }
  split; [exact Hm|].
  exact (proj1 (unknown_method_panics X0 hook0 client "get" appsPath None accepted Hm)
           custom).
Defined.

(** An override that does not parse: without options the call panics; with
    options the URL reaches the transport, which refuses it, and the answer
    the dashboard had ready is never asked for. *)
Lemma unparsable_base_URL_witness :
  verbOf "GET" = Some GET
  /\ GetBaseURL (strict "%zz") client = Val "%zz"
  /\ url_Parse (strict "%zz") "%zz" = inr (LibError "invalid URL escape")
  /\ doRequest (strict "%zz") hook0 client "GET" appsPath None None accepted
     = (Panic (PanicErr (LibError "invalid URL escape")), accepted)
  /\ doRequest (strict "%zz") hook0 client "GET" appsPath None (Some custom) accepted
     = (Val (inr (LibError "invalid URL escape")),
        mkState (world accepted) (jars accepted)
                (trace accepted ++ [EvHTTP GET "%zz/1.1/clients/self/apps" custom])).
Proof.
  do 3 (split; [reflexivity|]).
  split.
  - exact (proj1 (unparsable_base_URL (strict "%zz") hook0 client "GET" appsPath None
                    accepted GET "%zz" (LibError "invalid URL escape")
                    eq_refl eq_refl eq_refl)).
  - exact (proj2 (proj2 (unparsable_base_URL (strict "%zz") hook0 client "GET"
                           appsPath None accepted GET "%zz"
                           (LibError "invalid URL escape") eq_refl eq_refl eq_refl)
                    custom)
             (LibError "invalid URL escape") (world accepted) eq_refl).
Defined.

(** The caller's options with parameters: the body is replaced, the header
    and the user agent are the caller's. *)
Lemma supplied_options_sent_witness :
  verbOf "POST" = Some POST
  /\ GetBaseURL X0 client = Val "https://leancloud.cn"
  /\ exists sent after,
       trace (snd (doRequest X0 hook0 client "POST" appsPath
                     (Some {[ "name" := VString "demo" ]}) (Some custom) accepted))
       = (EvHTTP POST "https://leancloud.cn/1.1/clients/self/apps" sent :: after)
       /\ Headers sent = Some {[ "Accept" := "text/plain" ]}
       /\ UserAgent sent = "curl/8"
       /\ JSON sent = VMap {[ "name" := VString "demo" ]}.
Proof.
  split; [reflexivity|]. split; [reflexivity|].
  destruct (supplied_options_sent X0 hook0 client "POST" appsPath
              (Some {[ "name" := VString "demo" ]}) custom accepted POST
              "https://leancloud.cn" eq_refl eq_refl)
    as (sent & after & Htrace & Hheaders & _ & _ & Hagent & Hbody).
  exists sent, after. repeat split; assumption.
Defined.

Lemma challenged_run :
  doRequest X0 hook0 client "GET" appsPath None None challenged
  = (fst (doRequest X0 hook0 client "GET" appsPath None None challenged),
     snd (doRequest X0 hook0 client "GET" appsPath None None challenged)).
Proof. apply surjective_pairing. Defined.

(** The run of the challenge walks the whole way: six events after the
    caller's request. *)
Lemma doRequest_walk_witness :
  exists added,
    trace (snd (doRequest X0 hook0 client "GET" appsPath None None challenged))
    = (trace challenged ++ added)%list
    /\ length added = 6%nat.
Proof.
  destruct (doRequest_walk X0 hook0 client "GET" appsPath None None challenged
              _ _ challenged_run)
    as (added & Htrace & _ & _).
  exists added. split; [exact Htrace|].
  assert (length (trace (snd (doRequest X0 hook0 client "GET" appsPath None None
                                challenged)))
          = (length (trace challenged) + 6)%nat) as Hlen
    by (vm_compute; reflexivity).
  rewrite Htrace, length_app in Hlen. lia.
Defined.

Lemma doRequest_bounds_witness :
  exists added,
    trace (snd (doRequest X0 hook0 client "GET" appsPath None None challenged))
    = (trace challenged ++ added)%list
    /\ (length (http_events added) <= 2)%nat
    /\ (prompts added <= 1)%nat.
Proof.
  destruct (doRequest_bounds X0 hook0 client "GET" appsPath None None challenged
              _ _ challenged_run)
    as (added & Htrace & Hcalls & Hprompts & _).
  exists added. auto.
Defined.

Lemma doRequest_keeps_jars_witness :
  jars challenged !! 0%nat = Some "/home/dev/.config/leancloud/cookies"
  /\ jars (snd (doRequest X0 hook0 client "GET" appsPath None None challenged)) !! 0%nat
     = Some "/home/dev/.config/leancloud/cookies".
Proof.
  split; [reflexivity|].
  exact (proj1 (doRequest_keeps_jars X0 hook0 client "GET" appsPath None None
                  challenged _ _ challenged_run)
           0%nat "/home/dev/.config/leancloud/cookies" eq_refl).
Defined.

Lemma success_means_persisted_witness :
  doRequest X0 hook0 client "GET" appsPath None None accepted
  = (Val (inl (buildResponse welcome)),
     snd (doRequest X0 hook0 client "GET" appsPath None None accepted))
  /\ exists before,
       trace (snd (doRequest X0 hook0 client "GET" appsPath None None accepted))
       = (before ++ [EvJarSave 0%nat])%list.
Proof.
  assert (doRequest X0 hook0 client "GET" appsPath None None accepted
          = (Val (inl (buildResponse welcome)),
             snd (doRequest X0 hook0 client "GET" appsPath None None accepted)))
    as Hrun by (vm_compute; reflexivity).
  split; [exact Hrun|].
  destruct (success_means_persisted X0 hook0 _ _ _ _ _ _ _ _ Hrun)
    as (before & w & Htrace & _).
  exists before. exact Htrace.
Defined.

Lemma malformed_challenge_witness :
  dispatch X0 client "GET" appsPath None None challenged_garbled
  = (Val (inl (buildResponse garbled)), dispatched challenged_garbled)
  /\ StatusCode (buildResponse garbled) = 401%Z
  /\ Response_JSON_Token X0 (buildResponse garbled) = inr (LibError "invalid character")
  /\ doRequest X0 hook0 client "GET" appsPath None None challenged_garbled
     = (Val (inr (LibError "invalid character")), dispatched challenged_garbled).
Proof.
  assert (dispatch X0 client "GET" appsPath None None challenged_garbled
          = (Val (inl (buildResponse garbled)), dispatched challenged_garbled))
    as Hd by (vm_compute; reflexivity).
  split; [exact Hd|]. split; [reflexivity|]. split; [reflexivity|].
  exact (malformed_challenge X0 hook0 client "GET" appsPath None None
           challenged_garbled (dispatched challenged_garbled) (buildResponse garbled)
           (LibError "invalid character") Hd eq_refl eq_refl).
Defined.

(** The exchange is answered with a second challenge: the call ends with
    the generic error, and the third answer of the script is never asked
    for. *)
Lemma rejected_exchange_witness :
  exchanged X0 hook0 client (buildResponse challenge) (dispatched challenged_twice)
    "abc" 123456 "https://leancloud.cn" challenge
    (mkWorld [inl welcome] "123456" false [])
  /\ ~ (200 <= rawStatusCode challenge < 300)%Z
  /\ exists err,
       fst (doRequest X0 hook0 client "GET" appsPath None None challenged_twice)
       = Val (inr err)
       /\ server (world (snd (doRequest X0 hook0 client "GET" appsPath None None
                                challenged_twice)))
          = [inl welcome].
Proof.
  assert (exchanged X0 hook0 client (buildResponse challenge)
            (dispatched challenged_twice) "abc" 123456 "https://leancloud.cn"
            challenge (mkWorld [inl welcome] "123456" false [])) as Hex.
  { repeat (split; [reflexivity|]).
    eexists _, _. repeat split; reflexivity. }
  assert (~ (200 <= rawStatusCode challenge < 300)%Z) as Hrange
    by (intros [_ H]; vm_compute in H; discriminate H).
  assert (dispatch X0 client "GET" appsPath None None challenged_twice
          = (Val (inl (buildResponse challenge)), dispatched challenged_twice))
    as Hd by (vm_compute; reflexivity).
  split; [exact Hex|]. split; [exact Hrange|].
  destruct (rejected_exchange X0 hook0 client "GET" appsPath None None
              challenged_twice (dispatched challenged_twice)
              (buildResponse challenge) "abc" 123456 "https://leancloud.cn"
              challenge (mkWorld [inl welcome] "123456" false []) Hd Hex Hrange)
    as (err & Hrun & _).
  exists err. rewrite Hrun. split; reflexivity.
Defined.

Lemma failed_exchange_witness :
  dispatch X0 client "GET" appsPath None None challenged_then_gone
  = (Val (inl (buildResponse challenge)), dispatched challenged_then_gone)
  /\ fst (doRequest X0 hook0 client "GET" appsPath None None challenged_then_gone)
     = Val (inr (LibError "connection refused"))
  /\ saves (trace (snd (doRequest X0 hook0 client "GET" appsPath None None
                          challenged_then_gone)))
     = [].
Proof.
  assert (dispatch X0 client "GET" appsPath None None challenged_then_gone
          = (Val (inl (buildResponse challenge)), dispatched challenged_then_gone))
    as Hd by (vm_compute; reflexivity).
  split; [exact Hd|].
  rewrite (failed_exchange X0 hook0 client "GET" appsPath None None
             challenged_then_gone (dispatched challenged_then_gone)
             (buildResponse challenge) "abc" 123456 "https://leancloud.cn"
             (LibError "connection refused")
             (mkWorld [] "123456" false []) (mkWorld [] "123456" false [])
             (mkWorld [] "123456" false [])
             Hd eq_refl eq_refl eq_refl eq_refl eq_refl eq_refl).
  split; vm_compute; reflexivity.
Defined.

Lemma prompt_exactly_on_challenge_witness :
  dispatch X0 client "GET" appsPath None None challenged
  = (Val (inl (buildResponse challenge)), dispatched challenged)
  /\ exists after,
       trace (snd (doRequest X0 hook0 client "GET" appsPath None None challenged))
       = (trace (dispatched challenged) ++ after)%list
       /\ prompts after = 1%nat.
Proof.
  assert (dispatch X0 client "GET" appsPath None None challenged
          = (Val (inl (buildResponse challenge)), dispatched challenged))
    as Hd by (vm_compute; reflexivity).
  split; [exact Hd|].
  destruct (prompt_exactly_on_challenge X0 hook0 client "GET" appsPath None None
              challenged (dispatched challenged) (buildResponse challenge) Hd)
    as (after & Htrace & Hprompts & _).
  exists after. split; [exact Htrace|exact Hprompts].
Defined.

Lemma two_clients_one_file_witness :
  NewClientByRegion X0 CN blank
  = (Val (mkClient 0 CN ""), snd (NewClientByRegion X0 CN blank))
  /\ NewClientByApp X0 "app-us" (snd (NewClientByRegion X0 CN blank))
     = (Val (mkClient 1 (OtherRegion 0) "app-us"),
        snd (NewClientByApp X0 "app-us" (snd (NewClientByRegion X0 CN blank))))
  /\ jars (snd (NewClientByApp X0 "app-us" (snd (NewClientByRegion X0 CN blank))))
     = ["/home/dev/.config/leancloud/cookies"; "/home/dev/.config/leancloud/cookies"]
  /\ 0%nat <> 1%nat.
Proof.
  split; [reflexivity|]. split; [reflexivity|]. split; [reflexivity|].
  exact (proj1 (two_clients_one_file X0 CN "app-us" blank
                  (snd (NewClientByRegion X0 CN blank))
                  (snd (NewClientByApp X0 "app-us" (snd (NewClientByRegion X0 CN blank))))
                  (mkClient 0 CN "") (mkClient 1 (OtherRegion 0) "app-us")
                  eq_refl eq_refl)).
Defined.

Lemma base_URL_is_override_or_origin_witness :
  GetBaseURL X0 (mkClient 0 CN "app-us") = Val "https://us.leancloud.cn"
  /\ "https://us.leancloud.cn" <> "".
Proof.
  split; [reflexivity|].
  exact (proj1 (base_URL_is_override_or_origin X0 (mkClient 0 CN "app-us")
                  "https://us.leancloud.cn" eq_refl)).
Defined.

(** The empty application ID: the zero region of the demo is not in the
    table. *)
Lemma NewClientByApp_base_URL_witness :
  os_Getenv X0 "LEANCLOUD_DASHBOARD" = ""
  /\ NewClientByApp X0 "" blank
     = (Val (mkClient 0 (OtherRegion 0) ""), snd (NewClientByApp X0 "" blank))
  /\ GetBaseURL X0 (mkClient 0 (OtherRegion 0) "") = Panic (PanicStr "invalid region").
Proof.
  split; [reflexivity|]. split; [reflexivity|].
  exact (NewClientByApp_base_URL X0 "" blank (snd (NewClientByApp X0 "" blank))
           (mkClient 0 (OtherRegion 0) "") eq_refl eq_refl).
Defined.

Lemma helpers_send_their_verb_witness :
  GetBaseURL X0 client = Val "https://leancloud.cn"
  /\ exists after,
       trace (snd (delete X0 hook0 client appsPath (Some custom) accepted))
       = (EvHTTP DELETE "https://leancloud.cn/1.1/clients/self/apps" custom :: after).
Proof.
  split; [reflexivity|].
  exact (proj1 (proj2 (helpers_send_their_verb X0 hook0 client appsPath None custom
                         accepted "https://leancloud.cn" eq_refl))).
Defined.

Lemma untyped_error_is_generic_witness :
  dispatch X0 client "GET" appsPath None None failing
  = (Val (inl (buildResponse untyped)), dispatched failing)
  /\ ~ (200 <= StatusCode (buildResponse untyped) < 300)%Z
  /\ StatusCode (buildResponse untyped) <> 401%Z
  /\ Header (buildResponse untyped) !! "Content-Type" = None
  /\ doRequest X0 hook0 client "GET" appsPath None None failing
     = (Val (inr (ErrorString "HTTP Error: 500, GET /1.1/clients/self/apps")),
        dispatched failing).
Proof.
  assert (dispatch X0 client "GET" appsPath None None failing
          = (Val (inl (buildResponse untyped)), dispatched failing))
    as Hd by (vm_compute; reflexivity).
  assert (~ (200 <= StatusCode (buildResponse untyped) < 300)%Z) as Hrange
    by (intros [_ H]; vm_compute in H; discriminate H).
  assert (StatusCode (buildResponse untyped) <> 401%Z) as Hne by discriminate.
  split; [exact Hd|]. split; [exact Hrange|]. split; [exact Hne|].
  split; [reflexivity|].
  exact (proj1 (untyped_error_is_generic X0 hook0 client "GET" appsPath None None
                  failing (dispatched failing) (buildResponse untyped) Hd Hrange Hne)
           (or_introl eq_refl)).
Defined.

Lemma Get2FACode_default_accepts_witness :
  numeral (fst (wizard_Ask X0 (mkWorld [] "123456" false []))) = true
  /\ (String.length (unsignedPart (fst (wizard_Ask X0 (mkWorld [] "123456" false []))))
      <= 18)%nat
  /\ exists code, fst (Get2FACode_default X0 (mkWorld [] "123456" false [])) = inl code.
Proof.
  assert (String.length
            (unsignedPart (fst (wizard_Ask X0 (mkWorld [] "123456" false []))))
          <= 18)%nat as Hlen by (vm_compute; lia).
  split; [reflexivity|]. split; [exact Hlen|].
  destruct (Get2FACode_default_accepts X0 (mkWorld [] "123456" false []) eq_refl Hlen)
    as (code & Hcode & _).
  exists code. exact Hcode.
Defined.

End MoreRuns.
